(** * A shallow embedding of the scan engine of collective-vision

    Sources: [src/app/actions.ts] (the first [scanDomain], lines 1-194, with
    its helpers [getSSLDetails], [checkPort] and [identifyCMS]) and
    [src/app/riskCalculator.ts] ([calculateFinancialRisk]).

    Modelling choices:
    - JS strings are [String.string]; [String.prototype.includes] is
      [includes]; [toLowerCase] and the [/i] regex flag fold ASCII letters.
    - Scores, ports and day counts are integers and are modelled in [Z]; the
      risk calculator works on JS numbers and is modelled with the primitive
      IEEE-754 binary64 floats of the kernel.
    - Every network effect is read from an [Env]: the socket event of each
      port probe, the order in which the five port promises settle, the TLS
      handshake, the clock, the TXT lookups and [fetch]. A promise that can
      reject is a [Settled] value. *)

From Stdlib Require Import ZArith QArith Qround Floats Ascii String DecimalString.
From stdpp Require Import base list strings.
Import ListNotations.

Open Scope Z_scope.

(* ------------------------------------------------------------------ *)
(** ** Strings *)

(** [String.prototype.includes]: [sub] occurs somewhere in [s]. *)
Fixpoint includes (s sub : string) : bool :=
  String.prefix sub s ||
  match s with
  | EmptyString => false
  | String _ s' => includes s' sub
  end.

Definition ascii_lower (c : Ascii.ascii) : Ascii.ascii :=
  let n := Ascii.nat_of_ascii c in
  if (65 <=? n)%nat && (n <=? 90)%nat then Ascii.ascii_of_nat (n + 32) else c.

Definition ascii_upper (c : Ascii.ascii) : Ascii.ascii :=
  let n := Ascii.nat_of_ascii c in
  if (97 <=? n)%nat && (n <=? 122)%nat then Ascii.ascii_of_nat (n - 32) else c.

(** [String.prototype.toLowerCase]. *)
Fixpoint toLowerCase (s : string) : string :=
  match s with
  | EmptyString => EmptyString
  | String c s' => String (ascii_lower c) (toLowerCase s')
  end.

(** Template literals: [`a${b}c`] is [str_concat [a; b; c]]. *)
Definition str_concat (l : list string) : string := String.concat EmptyString l.

(** [`${n}`] for an integer-valued JS number. *)
Definition number_to_string (z : Z) : string := NilZero.string_of_int (Z.to_int z).

(* ------------------------------------------------------------------ *)
(** ** Domain normalisation (actions.ts line 107)

    [domain.replace(/^(?:https?:\/\/)?(?:www\.)?/i, <empty string>).split('/')[0]] *)

(** Case-insensitive match of the literal [pat] at the start of [s];
    returns what follows the match. *)
Fixpoint match_ci (pat s : string) : option string :=
  match pat, s with
  | EmptyString, _ => Some s
  | String p pat', String c s' =>
      if Ascii.eqb (ascii_upper p) (ascii_upper c) then match_ci pat' s' else None
  | String _ _, EmptyString => None
  end.

(** The regex is anchored and both groups are optional and greedy:
    [https?:\/\/] is tried first ([s?] greedy), then [www\.] on the rest.
    [replace] with a non-global regex replaces this one match by the empty string. *)
Definition strip_prefix_regex (s : string) : string :=
  let s1 :=
    match match_ci "https://" s with
    | Some r => r
    | None => match match_ci "http://" s with Some r => r | None => s end
    end in
  match match_ci "www." s1 with Some r => r | None => s1 end.

(** [.split('/')[0]]: everything before the first ['/']. *)
Fixpoint split_slash_0 (s : string) : string :=
  match s with
  | EmptyString => EmptyString
  | String c s' => if Ascii.eqb c "/"%char then EmptyString else String c (split_slash_0 s')
  end.

Definition cleanDomain (domain : string) : string :=
  split_slash_0 (strip_prefix_regex domain).

(* ------------------------------------------------------------------ *)
(** ** The network, as observed by the probes *)

(** A settled promise. *)
Inductive Settled (A : Type) : Type :=
| Fulfilled (a : A)
| Rejected (reason : string).
Arguments Fulfilled {A} a.
Arguments Rejected {A} reason.

(** The first event a [net.Socket] emits in [checkPort]. *)
Inductive SocketEvent := SockConnect | SockTimeout | SockError.

(** The fields of [socket.getPeerCertificate()] that are read:
    [valid_to] parsed by [new Date] (milliseconds since the epoch; [None]
    is an unparseable date, whose [getTime()] is NaN) and [issuer.O]. *)
Record PeerCert := mkPeerCert {
  valid_to_ms : option Z;
  issuer_O : option string
}.

(** The first event of [tls.connect] in [getSSLDetails]: the secure-connect
    callback with the peer certificate ([None]: an empty certificate
    object), an [error] event or a [timeout] event. *)
Inductive TlsEvent :=
| TlsSecureConnect (cert : option PeerCert)
| TlsError
| TlsTimeout.

(** A [fetch] response: [headers.get] (names in lower case) and the
    settled promise of [response.text()]. *)
Record Response := mkResponse {
  headers_get : string -> option string;
  text : Settled string
}.

Record Env := mkEnv {
  port_socket : string -> Z -> SocketEvent;
  (** the indices (into [portsToCheck]) of the port promises, in the order
      in which they settle *)
  port_order : list nat;
  tls_connect : string -> TlsEvent;
  now_ms : Z;
  (** [dns.resolveTxt(name)] *)
  resolveTxt : string -> Settled (list (list string));
  (** [fetch(url, ...)] *)
  fetch : string -> Settled Response
}.

(* ------------------------------------------------------------------ *)
(** ** Helper 1: [getSSLDetails] (lines 8-33) *)

(** A JS number produced by [Math.floor] of a quotient of integers: an
    integer, or NaN when the certificate date does not parse. *)
Inductive JsDays := DaysNum (z : Z) | DaysNaN.

Definition days_gt (d : JsDays) (k : Z) : bool :=
  match d with DaysNum z => k <? z | DaysNaN => false end.

Definition days_lt (d : JsDays) (k : Z) : bool :=
  match d with DaysNum z => z <? k | DaysNaN => false end.

Definition days_to_string (d : JsDays) : string :=
  match d with DaysNum z => number_to_string z | DaysNaN => "NaN" end.

Record SSLDetails := mkSSL {
  daysRemaining : JsDays;
  valid : bool;
  issuer : string
}.

Definition ms_per_day : Z := 1000 * 60 * 60 * 24.

(** [Math.floor((validTo.getTime() - Date.now()) / ms_per_day)]: both times
    are integral milliseconds within the range of [Date], so the float
    quotient floors to the same integer as [Z.div]. *)
Definition getSSLDetails (env : Env) (domain : string) : option SSLDetails :=
  match tls_connect env domain with
  | TlsSecureConnect None => None
  | TlsSecureConnect (Some cert) =>
      let dr := match valid_to_ms cert with
                | Some t => DaysNum ((t - now_ms env) / ms_per_day)
                | None => DaysNaN
                end in
      Some {| daysRemaining := dr;
              valid := days_gt dr 0;
              issuer := match issuer_O cert with
                        | Some o => if String.eqb o EmptyString then "Unknown" else o
                        | None => "Unknown"
                        end |}
  | TlsError => None
  | TlsTimeout => None
  end.

(* ------------------------------------------------------------------ *)
(** ** Helper 2: [checkPort] (lines 36-45) *)

Definition checkPort (env : Env) (domain : string) (port : Z) : bool :=
  match port_socket env domain port with
  | SockConnect => true
  | SockTimeout => false
  | SockError => false
  end.

(* ------------------------------------------------------------------ *)
(** ** Helper 3: [identifyCMS] (lines 49-102) *)

(** JS truthiness of [headers.get(name)]: [null] and the empty string are falsy. *)
Definition truthy (o : option string) : bool :=
  match o with Some v => negb (String.eqb v EmptyString) | None => false end.

(** The one-character string made of a double quote. *)
Definition dquote : string := String (Ascii.ascii_of_nat 34) EmptyString.

Definition identifyCMS (html : string) (headers : string -> option string) : option string :=
  let lowerHtml := toLowerCase html in
  if includes lowerHtml "/wp-content/" ||
     includes lowerHtml "/wp-includes/" ||
     includes lowerHtml "wp-json" ||
     includes lowerHtml (str_concat ["class="; dquote; "wp-block"]) ||
     includes lowerHtml (str_concat ["id="; dquote; "wp-admin-bar"]) ||
     match headers "x-powered-by" with Some v => includes v "WP Engine" | None => false end
  then Some "WordPress"
  else if includes lowerHtml "cdn.shopify.com" ||
          includes lowerHtml "window.shopify" ||
          includes lowerHtml "shopify-section"
  then Some "Shopify"
  else if includes lowerHtml "static1.squarespace.com" ||
          includes lowerHtml "squarespace-core" ||
          match headers "x-served-by" with Some v => String.eqb v "Squarespace" | None => false end
  then Some "Squarespace"
  else if includes lowerHtml "wix.com" ||
          includes lowerHtml "wix-warmup-data" ||
          truthy (headers "x-wix-request-id")
  then Some "Wix"
  else if includes lowerHtml "joomla" ||
          includes lowerHtml "/templates/system/css/system.css"
  then Some "Joomla"
  else if includes lowerHtml "drupal" ||
          includes lowerHtml "sites/default/files"
  then Some "Drupal"
  else None.

(* ------------------------------------------------------------------ *)
(** ** [Promise.all]

    Each promise writes its value into its own slot when it settles;
    [Promise.all] resolves with the slots once all have settled. [order]
    lists the indices of the promises in settlement order. *)

Fixpoint settle {A} (vals : list A) (order : list nat) (slots : list (option A)) : list (option A) :=
  match order with
  | [] => slots
  | i :: order' =>
      settle vals order'
        (match vals !! i with Some v => <[i := Some v]> slots | None => slots end)
  end.

Definition promise_all {A} (order : list nat) (vals : list A) : list (option A) :=
  settle vals order (replicate (length vals) None).

(* ------------------------------------------------------------------ *)
(** ** The main engine: [scanDomain] (lines 105-194) *)

(** The locals [score], [issues], [passes] and [cms]; the returned object
    has the same four fields. *)
Record ScanReport := mkReport {
  score : Z;
  issues : list string;
  passes : list string;
  cms : option string
}.

Definition deduct (k : Z) (st : ScanReport) : ScanReport :=
  {| score := score st - k; issues := issues st; passes := passes st; cms := cms st |}.

Definition push_issue (l : string) (st : ScanReport) : ScanReport :=
  {| score := score st; issues := issues st ++ [l]; passes := passes st; cms := cms st |}.

Definition push_pass (l : string) (st : ScanReport) : ScanReport :=
  {| score := score st; issues := issues st; passes := passes st ++ [l]; cms := cms st |}.

Definition set_cms (c : option string) (st : ScanReport) : ScanReport :=
  {| score := score st; issues := issues st; passes := passes st; cms := c |}.

(** *** 1. Port scan (lines 115-133) *)

Record PortEntry := mkPortEntry { port : Z; service : string; risk : string }.

Definition portsToCheck : list PortEntry :=
  [ {| port := 21; service := "FTP"; risk := "High" |};
    {| port := 22; service := "SSH"; risk := "Medium" |};
    {| port := 3389; service := "RDP"; risk := "Critical" |};
    {| port := 3306; service := "MySQL"; risk := "Critical" |};
    {| port := 5432; service := "PostgreSQL"; risk := "Critical" |} ].

(** [{ ...p, isOpen }] *)
Record PortResult := mkPortResult { entry : PortEntry; isOpen : bool }.

(** The body of [portResults.forEach]; the accumulator is
    [(openPorts, locals)]. *)
Definition port_step (acc : nat * ScanReport) (res : option PortResult) : nat * ScanReport :=
  let '(openPorts, st) := acc in
  match res with
  | Some r =>
      if isOpen r then
        (S openPorts,
         push_issue (str_concat ["Open Port: "; number_to_string (port (entry r));
                                 " ("; service (entry r); ")"])
           (deduct (if String.eqb (risk (entry r)) "Critical" then 20 else 10) st))
      else (openPorts, st)
  | None => (openPorts, st)
  end.

(** No statement in the [try] block throws ([checkPort] never rejects), so
    its empty [catch] is never entered. *)
Definition port_phase (env : Env) (cleanDomain : string) (st : ScanReport) : ScanReport :=
  let portResults :=
    promise_all (port_order env)
      (map (fun p => {| entry := p; isOpen := checkPort env cleanDomain (port p) |}) portsToCheck) in
  let '(openPorts, st') := fold_left port_step portResults (0%nat, st) in
  if Nat.eqb openPorts 0 then push_pass "Critical Ports are Firewalled" st' else st'.

(** *** 2. SSL check (lines 136-143) *)

Definition ssl_phase (ssl : option SSLDetails) (st : ScanReport) : ScanReport :=
  match ssl with
  | Some s =>
      if negb (valid s) then push_issue "SSL Certificate EXPIRED" (deduct 20 st)
      else if days_lt (daysRemaining s) 14 then
        push_issue (str_concat ["SSL Expires soon ("; days_to_string (daysRemaining s); " days)"])
          (deduct 10 st)
      else push_pass (str_concat ["SSL Valid ("; days_to_string (daysRemaining s); " days left)"]) st
  | None => push_issue "No SSL Certificate found" (deduct 20 st)
  end.

(** *** 3. DNS security (lines 146-157) *)

(** [promise.catch(() => [])] *)
Definition catch_empty (p : Settled (list (list string))) : list (list string) :=
  match p with Fulfilled l => l | Rejected _ => [] end.

(** Both lookups carry [.catch(() => [])] and no other statement of the
    [try] block throws, so its [catch] ("DNS Lookup failed") is never
    entered. *)
Definition dns_phase (env : Env) (cleanDomain : string) (st : ScanReport) : ScanReport :=
  let txt := catch_empty (resolveTxt env cleanDomain) in
  let spf := find (fun r => includes r "v=spf1") (concat txt) in
  let st1 :=
    match spf with
    | None => push_issue "Missing SPF Record" (deduct 20 st)
    | Some r =>
        if includes r "+all" then push_issue "SPF Record unsafe ('+all')" (deduct 20 st)
        else push_pass "SPF Record Detected" st
    end in
  let dmarc := find (fun r => includes r "v=DMARC1")
                 (concat (catch_empty (resolveTxt env (str_concat ["_dmarc."; cleanDomain])))) in
  match dmarc with
  | None => push_issue "Missing DMARC Record" (deduct 30 st1)
  | Some r =>
      if includes r "p=none" then push_issue "DMARC Policy weak ('p=none')" (deduct 10 st1)
      else push_pass "DMARC Record Active" st1
  end.

(** *** 4. Web security and CMS (lines 160-191) *)

Definition web_failed_line : string := "Website Scan Failed (Firewall may be blocking scanner)".

(** The [try] block throws only at its two [await]s ([fetch] and
    [response.text()]), both before any local is written. *)
Definition web_phase (env : Env) (cleanDomain : string) (st : ScanReport) : ScanReport :=
  match fetch env (str_concat ["https://"; cleanDomain]) with
  | Rejected _ => push_issue web_failed_line st
  | Fulfilled response =>
      match text response with
      | Rejected _ => push_issue web_failed_line st
      | Fulfilled htmlBody =>
          let hget := headers_get response in
          let st1 := set_cms (identifyCMS htmlBody hget) st in
          let st2 := if negb (truthy (hget "strict-transport-security"))
                     then push_issue "Missing HSTS Header" (deduct 10 st1)
                     else push_pass "HSTS Enabled" st1 in
          let st3 := if negb (truthy (hget "x-content-type-options"))
                     then push_issue "Missing X-Content-Type-Options" (deduct 5 st2)
                     else push_pass "Content Sniffing Protection Active" st2 in
          let xf := hget "x-frame-options" in
          let csp := hget "content-security-policy" in
          if negb (truthy xf) &&
             negb (truthy csp && match csp with Some c => includes c "frame-ancestors" | None => false end)
          then push_issue "Missing Clickjacking Protection" (deduct 5 st3)
          else push_pass "Clickjacking Protection Active" st3
      end
  end.

(** *** The whole scan *)

Definition scan_init : ScanReport :=
  {| score := 100; issues := []; passes := []; cms := None |}.

(** The locals just before [return]. *)
Definition scan_locals (domain : string) (env : Env) : ScanReport :=
  let d := cleanDomain domain in
  web_phase env d (dns_phase env d (ssl_phase (getSSLDetails env d) (port_phase env d scan_init))).

(** [return { score: Math.max(0, score), issues, passes, cms }]; the
    returned promise settles with the report. *)
Definition scanDomain (domain : string) (env : Env) : Settled ScanReport :=
  let st := scan_locals domain env in
  Fulfilled {| score := Z.max 0 (score st); issues := issues st; passes := passes st; cms := cms st |}.

(* ------------------------------------------------------------------ *)
(** ** [calculateFinancialRisk] (riskCalculator.ts) *)

Module Risk.

Local Open Scope float_scope.
Local Set Warnings "-inexact-float".

Record IndustryData := mkIndustry { baseCost : float; riskMultiplier : float }.

(** The own properties of the object literal [INDUSTRY_DATA]. *)
Definition INDUSTRY_DATA : list (string * IndustryData) :=
  [ ("marketing", {| baseCost := 4500000; riskMultiplier := 1.2 |});
    ("finance", {| baseCost := 5600000; riskMultiplier := 1.5 |});
    ("retail", {| baseCost := 2000000; riskMultiplier := 1.0 |});
    ("manufacturing", {| baseCost := 1500000; riskMultiplier := 0.9 |});
    ("other", {| baseCost := 1000000; riskMultiplier := 1.0 |}) ].

(** The properties an object literal inherits from [Object.prototype]. *)
Definition object_prototype_keys : list string :=
  [ "constructor"; "__defineGetter__"; "__defineSetter__"; "hasOwnProperty";
    "__lookupGetter__"; "__lookupSetter__"; "isPrototypeOf";
    "propertyIsEnumerable"; "toString"; "valueOf"; "__proto__";
    "toLocaleString" ].

(** The value of [obj[key]]: an own record, an inherited built-in (a
    function, or [Object.prototype] itself for [__proto__]; all truthy), or
    [undefined]. *)
Inductive PropValue := PData (d : IndustryData) | PInherited | PUndefined.

Fixpoint own_lookup (obj : list (string * IndustryData)) (key : string) : option IndustryData :=
  match obj with
  | [] => None
  | (k, d) :: obj' => if String.eqb k key then Some d else own_lookup obj' key
  end.

Definition get_prop (obj : list (string * IndustryData)) (key : string) : PropValue :=
  match own_lookup obj key with
  | Some d => PData d
  | None => if existsb (String.eqb key) object_prototype_keys then PInherited else PUndefined
  end.

(** [a || b] on property values. *)
Definition js_or (a b : PropValue) : PropValue :=
  match a with PUndefined => b | _ => a end.

(** [data.baseCost] used as a number: a built-in has no [baseCost]
    property, and [undefined] converts to NaN. (Reading it from [undefined]
    would throw; [INDUSTRY_DATA["other"]] is an own record, so that case
    does not arise.) *)
Definition baseCost_of (v : PropValue) : float :=
  match v with PData d => baseCost d | PInherited => nan | PUndefined => nan end.

(** [Math.ceil] on binary64 values: finite values with a negative exponent
    are rounded up through their exact mantissa; everything else (integral
    values, infinities, NaN) is returned unchanged. *)
Definition math_ceil (x : float) : float :=
  match Prim2SF x with
  | S754_finite s m e =>
      if (e >=? 0)%Z then x
      else
        let d := (2 ^ (- e))%Z in
        if s then - (of_uint63 (Uint63.of_Z (Z.pos m / d)))
        else of_uint63 (Uint63.of_Z ((Z.pos m + d - 1) / d))
  | _ => x
  end.

Definition calculateFinancialRisk (industry : string) (employeeCount securityScore : float) : float :=
  let data := js_or (get_prop INDUSTRY_DATA industry) (get_prop INDUSTRY_DATA "other") in
  let sizeFactor :=
    if employeeCount <? 10 then 0.002
    else if employeeCount <? 50 then 0.005
    else 0.015 in
  let vulnerabilityFactor := (100 - securityScore) / 100 in
  let estimatedLoss := baseCost_of data * sizeFactor * vulnerabilityFactor in
  math_ceil (estimatedLoss / 100) * 100.

(** The exact rational value of a finite float. *)
Definition Q_of_float (x : float) : Q :=
  match Prim2SF x with
  | S754_finite s m e =>
      let v := if (e >=? 0)%Z then inject_Z (Z.pos m * 2 ^ e) else Z.pos m # Z.to_pos (2 ^ (- e)) in
      if s then Qopp v else v
  | _ => 0%Q
  end.

(** The loss as the specification words it, in exact arithmetic:
    [ceil((baseCost * sizeFactor * (100 - score)/100) / 100) * 100]. *)
Definition claimed_loss (industry : string) (employeeCount score : Z) : Z :=
  let baseCost := match own_lookup INDUSTRY_DATA industry with
                  | Some d => Q_of_float (baseCost d)
                  | None => 0%Q
                  end in
  let sizeFactor := if (employeeCount <? 10)%Z then (2 # 1000)%Q
                    else if (employeeCount <? 50)%Z then (5 # 1000)%Q
                    else (15 # 1000)%Q in
  (Qceiling (baseCost * sizeFactor * inject_Z (100 - score) / 100 / 100) * 100)%Z.

End Risk.

(* ------------------------------------------------------------------ *)
(** ** Auxiliary definitions for the statements *)

(** The port phase, summarised over the settled port results. *)
Definition open_port_line (e : PortEntry) : string :=
  str_concat ["Open Port: "; number_to_string (port e); " ("; service e; ")"].

Definition risk_deduction (e : PortEntry) : Z :=
  if String.eqb (risk e) "Critical" then 20 else 10.

Fixpoint open_count (rs : list (option PortResult)) : nat :=
  match rs with
  | [] => 0%nat
  | Some r :: rs' => ((if isOpen r then 1 else 0) + open_count rs')%nat
  | None :: rs' => open_count rs'
  end.

Fixpoint open_deduction (rs : list (option PortResult)) : Z :=
  match rs with
  | [] => 0
  | Some r :: rs' => (if isOpen r then risk_deduction (entry r) else 0) + open_deduction rs'
  | None :: rs' => open_deduction rs'
  end.

Fixpoint open_lines (rs : list (option PortResult)) : list string :=
  match rs with
  | [] => []
  | Some r :: rs' => (if isOpen r then [open_port_line (entry r)] else []) ++ open_lines rs'
  | None :: rs' => open_lines rs'
  end.

Definition port_results (env : Env) (d : string) : list (option PortResult) :=
  promise_all (port_order env)
    (map (fun p => {| entry := p; isOpen := checkPort env d (port p) |}) portsToCheck).

(** A network where only the listed ports accept a connection and every
    other probe fails. *)
Definition example_env (open_ports : list Z) (order : list nat) : Env := {|
  port_socket := fun _ p => if existsb (Z.eqb p) open_ports then SockConnect else SockError;
  port_order := order;
  tls_connect := fun _ => TlsError;
  now_ms := 0;
  resolveTxt := fun _ => Rejected "ENOTFOUND";
  fetch := fun _ => Rejected "fetch failed" |}.

(** The two halves of the DNS phase: the SPF verdict on the apex records
    and the DMARC verdict on the [_dmarc] records. *)
Definition spf_step (spf : option string) (st : ScanReport) : ScanReport :=
  match spf with
  | None => push_issue "Missing SPF Record" (deduct 20 st)
  | Some r =>
      if includes r "+all" then push_issue "SPF Record unsafe ('+all')" (deduct 20 st)
      else push_pass "SPF Record Detected" st
  end.

Definition dmarc_step (dmarc : option string) (st : ScanReport) : ScanReport :=
  match dmarc with
  | None => push_issue "Missing DMARC Record" (deduct 30 st)
  | Some r =>
      if includes r "p=none" then push_issue "DMARC Policy weak ('p=none')" (deduct 10 st)
      else push_pass "DMARC Record Active" st
  end.

Definition first_record (needle : string) (p : Settled (list (list string))) : option string :=
  find (fun r => includes r needle) (concat (catch_empty p)).

(** The same network, except that the TXT lookup of [name] settles as [p]. *)
Definition with_txt (env : Env) (name : string) (p : Settled (list (list string))) : Env := {|
  port_socket := port_socket env;
  port_order := port_order env;
  tls_connect := tls_connect env;
  now_ms := now_ms env;
  resolveTxt := fun n => if String.eqb n name then p else resolveTxt env n;
  fetch := fetch env |}.

(** An issue line that does not mention DMARC. *)
Definition no_dmarc (l : string) : Prop := includes l "DMARC" = false.

Definition count_dmarc (ls : list string) : nat :=
  length (List.filter (fun l => includes l "DMARC") ls).

Definition zero_st : ScanReport := {| score := 0; issues := []; passes := []; cms := None |}.

(* ------------------------------------------------------------------ *)
(** ** The earlier [scanDomain] (actions.ts lines 195-288)

    The file keeps a second, older engine after the main one: DNS and
    header checks only, no port scan, no TLS check, no CMS detection. It
    reads the same network; its [fetch] response is used for its headers
    only ([response.text()] is never awaited). *)

Module Legacy.

Definition dns_phase (env : Env) (cleanDomain : string) (st : ScanReport) : ScanReport :=
  let txtRecords := catch_empty (resolveTxt env cleanDomain) in
  let spfRecord := find (fun r => includes r "v=spf1") (concat txtRecords) in
  let st1 :=
    match spfRecord with
    | None => push_issue "Missing SPF Record (High Phishing Risk)" (deduct 20 st)
    | Some r =>
        if includes r "+all"
        then push_issue "SPF Record allows 'anyone' to send email (Critical Risk)" (deduct 20 st)
        else push_pass "SPF Record Detected (Email Identity)" st
    end in
  let dmarcRecords := catch_empty (resolveTxt env (str_concat ["_dmarc."; cleanDomain])) in
  let dmarcRecord := find (fun r => includes r "v=DMARC1") (concat dmarcRecords) in
  match dmarcRecord with
  | None => push_issue "Missing DMARC Record (Email Spoofing Possible)" (deduct 30 st1)
  | Some r =>
      if includes r "p=none" then push_issue "DMARC Policy is weak ('p=none')" (deduct 10 st1)
      else push_pass "DMARC Record Active (Spoofing Protection)" st1
  end.

Definition failed_line : string := "Could not scan Website Headers (Site may be blocking bots)".

(** [hasFrameProtection = xFrame || (csp && csp.includes(...))] is tested
    for truthiness: it is [xFrame] when that is truthy, else [csp] when
    that is falsy, else the boolean [includes]. *)
Definition web_phase (env : Env) (cleanDomain : string) (st : ScanReport) : ScanReport :=
  match fetch env (str_concat ["https://"; cleanDomain]) with
  | Rejected _ => push_issue failed_line st
  | Fulfilled response =>
      let hget := headers_get response in
      let st1 := if negb (truthy (hget "strict-transport-security"))
                 then push_issue "Missing HSTS Header (Vulnerable to Downgrade Attacks)" (deduct 10 st)
                 else push_pass "HSTS Enabled (Secure Connections Only)" st in
      let st2 := if negb (truthy (hget "x-content-type-options"))
                 then push_issue "Missing X-Content-Type-Options (File Execution Risk)" (deduct 5 st1)
                 else push_pass "Content Sniffing Protection Active" st1 in
      let xFrame := hget "x-frame-options" in
      let csp := hget "content-security-policy" in
      let hasFrameProtection :=
        truthy xFrame ||
        (truthy csp && match csp with Some c => includes c "frame-ancestors" | None => false end) in
      if negb hasFrameProtection
      then push_issue "Missing Clickjacking Protection (X-Frame-Options or CSP)" (deduct 5 st2)
      else push_pass "Clickjacking Protection Active" st2
  end.

(** The locals [score], [issues] and [passes] just before [return]
    ([cms] of [ScanReport] stays [None]: this engine has no such local). *)
Definition scan_locals (domain : string) (env : Env) : ScanReport :=
  let d := cleanDomain domain in
  web_phase env d (dns_phase env d scan_init).

(** The returned object: [{ score: Math.max(0, score), issues, passes }]. *)
Record Report := mkLegacyReport { score : Z; issues : list string; passes : list string }.

Definition scanDomain (domain : string) (env : Env) : Settled Report :=
  match scan_locals domain env with
  | mkReport s is ps _ => Fulfilled (mkLegacyReport (Z.max 0 s) is ps)
  end.

End Legacy.

(* ------------------------------------------------------------------ *)
(** ** The page (page.tsx): [handleScan], [generateFix] and what the
    results view derives from the state *)

(** A JS number holding the integer [z] (exact for [|z| < 2^53]). *)
Definition float_of_Z (z : Z) : float :=
  if z <? 0 then PrimFloat.opp (PrimFloat.of_uint63 (Uint63.of_Z (- z)))
  else PrimFloat.of_uint63 (Uint63.of_Z z).

Module Page.

(** [interface FixData] *)
Record FixData := mkFix {
  title : string;
  type : string;
  code : string;
  explanation : string;
  steps : list string
}.

(** [cmsAdvice]: the own properties of the object literal. *)
Definition cmsAdvice : list (string * string) :=
  [ ("WordPress", "WordPress is the most targeted CMS in the world. Ensure you are using a security plugin (like Wordfence), change the default 'admin' username, and keep all plugins auto-updated.");
    ("Shopify", "Shopify is generally secure, but risk lies in third-party apps. Audit your installed apps regularly and ensure Two-Factor Authentication (2FA) is enforced for all staff accounts.");
    ("Wix", "Wix manages most security for you, but you are vulnerable to social engineering. Ensure your domain DNS is locked and 2FA is active on your Wix account.");
    ("Squarespace", "Squarespace is a closed ecosystem. Your main risk is weak passwords. Enforce strong password policies for all contributors and limit permissions.");
    ("Joomla", "Joomla requires strict maintenance. Rename your 'htaccess.txt' to '.htaccess' to activate built-in firewall rules and remove unused extensions immediately.");
    ("Drupal", "Drupal is powerful but complex. Ensure you are subscribed to Drupal Security Advisories and apply core security patches within hours of release.");
    ("Unknown", "We could not identify a specific CMS. This often means a custom build, which requires a manual code audit to ensure no hidden vulnerabilities exist.") ].

(** The value of [cmsAdvice[key]]: an own string, a built-in inherited
    from [Object.prototype], or [undefined]. *)
Inductive AdviceValue := AText (s : string) | AInherited | AUndefined.

Fixpoint own_get (obj : list (string * string)) (key : string) : option string :=
  match obj with
  | [] => None
  | (k, v) :: obj' => if String.eqb k key then Some v else own_get obj' key
  end.

Definition advice_get (key : string) : AdviceValue :=
  match own_get cmsAdvice key with
  | Some v => AText v
  | None => if existsb (String.eqb key) Risk.object_prototype_keys then AInherited else AUndefined
  end.

(** [{detectedCMS ? cmsAdvice[detectedCMS] : cmsAdvice["Unknown"]}] *)
Definition shown_advice (detectedCMS : option string) : AdviceValue :=
  match detectedCMS with
  | Some c => if truthy (Some c) then advice_get c else advice_get "Unknown"
  | None => advice_get "Unknown"
  end.

(** [{riskScore < 70 ? 'CRITICAL ATTENTION NEEDED' : 'OPTIMAL CONFIGURATION'}] *)
Definition posture (riskScore : Z) : string :=
  if riskScore <? 70 then "CRITICAL ATTENTION NEEDED" else "OPTIMAL CONFIGURATION".

(** The fix button of an issue line:
    [(issue.includes("DMARC") || issue.includes("SPF")) && ...] *)
Definition fix_button (issue : string) : bool :=
  includes issue "DMARC" || includes issue "SPF".

(** The [<option>] values of the two selects ([employees] is set with
    [Number(e.target.value)]). *)
Definition industry_options : list string := ["marketing"; "finance"; "retail"; "manufacturing"; "other"].
Definition employee_options : list float := [5%float; 25%float; 100%float].

Definition newline : string := String (Ascii.ascii_of_nat 10) EmptyString.

(** The character U+26A0 (warning sign), as the UTF-8 bytes of the source. *)
Definition warning_sign : string :=
  String (Ascii.ascii_of_nat 226) (String (Ascii.ascii_of_nat 154) (String (Ascii.ascii_of_nat 160) EmptyString)).

(** The record value the DMARC guide suggests (after [Value: ]). *)
Definition dmarc_value (domain : string) : string :=
  str_concat ["v=DMARC1; p=none; rua=mailto:admin@"; domain].

Definition dmarc_fix (domain : string) : FixData := {|
  title := "DMARC Implementation Guide";
  type := "TXT Record";
  code := str_concat ["Host: _dmarc"; newline; "Value: "; dmarc_value domain];
  explanation := "This record puts your email domain into 'Monitoring Mode'. It does not block any emails yet (so it is safe to install), but it will start sending you reports on who is sending email as your company.";
  steps := [ "Log in to your DNS Provider.";
             "Go to 'DNS Management'.";
             "Add a new record: Select 'TXT' as the type.";
             "Paste '_dmarc' into the Host/Name field.";
             "Paste the code below into the Value/Content field.";
             str_concat [warning_sign; " IMPORTANT: Change 'admin@...' to the actual IT email address."];
             "Save. Changes can take up to 48 hours to propagate." ] |}.

(** The record value the SPF template suggests (after [Value: ]). *)
Definition spf_value : string :=
  "v=spf1 include:_spf.google.com include:spf.protection.outlook.com ~all".

Definition spf_fix : FixData := {|
  title := "SPF Record Template";
  type := "TXT Record";
  code := str_concat ["Host: @"; newline; "Value: "; spf_value];
  explanation := "This template lists exactly which services are allowed to send email for you. This template authorizes Google and Outlook.";
  steps := [ "Log in to your DNS Provider.";
             "Go to 'DNS Management'.";
             "Add a new record: Select 'TXT' as the type.";
             "Type '@' into the Host/Name field.";
             "Paste the code below into the Value field.";
             str_concat [warning_sign; " IMPORTANT: If you use Mailchimp or HubSpot, ask IT to add them to this list."] ] |}.

(** The component's state ([useState] hooks). *)
Record PageState := mkPage {
  domain : string;
  industry : string;
  employees : float;
  loading : bool;
  showResults : bool;
  riskScore : Z;
  financialLoss : float;
  issues : list string;
  passes : list string;
  detectedCMS : option string;
  selectedFix : option FixData;
  copySuccess : bool
}.

Definition initial : PageState := {|
  domain := EmptyString; industry := "marketing"; employees := 5%float;
  loading := false; showResults := false; riskScore := 0; financialLoss := 0%float;
  issues := []; passes := []; detectedCMS := None; selectedFix := None; copySuccess := false |}.

(** The state setters. *)
Definition setDomain (v : string) (s : PageState) : PageState :=
  mkPage v (industry s) (employees s) (loading s) (showResults s) (riskScore s)
    (financialLoss s) (issues s) (passes s) (detectedCMS s) (selectedFix s) (copySuccess s).
Definition setLoading (v : bool) (s : PageState) : PageState :=
  mkPage (domain s) (industry s) (employees s) v (showResults s) (riskScore s)
    (financialLoss s) (issues s) (passes s) (detectedCMS s) (selectedFix s) (copySuccess s).
Definition setShowResults (v : bool) (s : PageState) : PageState :=
  mkPage (domain s) (industry s) (employees s) (loading s) v (riskScore s)
    (financialLoss s) (issues s) (passes s) (detectedCMS s) (selectedFix s) (copySuccess s).
Definition setRiskScore (v : Z) (s : PageState) : PageState :=
  mkPage (domain s) (industry s) (employees s) (loading s) (showResults s) v
    (financialLoss s) (issues s) (passes s) (detectedCMS s) (selectedFix s) (copySuccess s).
Definition setFinancialLoss (v : float) (s : PageState) : PageState :=
  mkPage (domain s) (industry s) (employees s) (loading s) (showResults s) (riskScore s)
    v (issues s) (passes s) (detectedCMS s) (selectedFix s) (copySuccess s).
Definition setIssues (v : list string) (s : PageState) : PageState :=
  mkPage (domain s) (industry s) (employees s) (loading s) (showResults s) (riskScore s)
    (financialLoss s) v (passes s) (detectedCMS s) (selectedFix s) (copySuccess s).
Definition setPasses (v : list string) (s : PageState) : PageState :=
  mkPage (domain s) (industry s) (employees s) (loading s) (showResults s) (riskScore s)
    (financialLoss s) (issues s) v (detectedCMS s) (selectedFix s) (copySuccess s).
Definition setDetectedCMS (v : option string) (s : PageState) : PageState :=
  mkPage (domain s) (industry s) (employees s) (loading s) (showResults s) (riskScore s)
    (financialLoss s) (issues s) (passes s) v (selectedFix s) (copySuccess s).
Definition setSelectedFix (v : option FixData) (s : PageState) : PageState :=
  mkPage (domain s) (industry s) (employees s) (loading s) (showResults s) (riskScore s)
    (financialLoss s) (issues s) (passes s) (detectedCMS s) v (copySuccess s).
Definition setCopySuccess (v : bool) (s : PageState) : PageState :=
  mkPage (domain s) (industry s) (employees s) (loading s) (showResults s) (riskScore s)
    (financialLoss s) (issues s) (passes s) (detectedCMS s) (selectedFix s) v.

(** [handleScan], run to completion: the state once the awaited scan has
    settled and every setter has applied. The scan's score is an integer,
    passed to [calculateFinancialRisk] as a JS number. A rejected scan
    makes the handler throw after its first four setters. *)
Definition handleScan (env : Env) (s : PageState) : PageState :=
  if String.eqb (domain s) EmptyString then s
  else
    let s1 := setCopySuccess false (setSelectedFix None (setShowResults false (setLoading true s))) in
    match scanDomain (domain s1) env with
    | Rejected _ => s1
    | Fulfilled (mkReport sc is ps c) =>
        let loss := Risk.calculateFinancialRisk (industry s1) (employees s1) (float_of_Z sc) in
        setShowResults true (setLoading false
          (setDetectedCMS c (setPasses ps (setIssues is (setFinancialLoss loss (setRiskScore sc s1))))))
    end.

(** [generateFix(issue)] *)
Definition generateFix (issue : string) (s : PageState) : PageState :=
  let s1 := setCopySuccess false s in
  if includes issue "DMARC" then setSelectedFix (Some (dmarc_fix (domain s1))) s1
  else if includes issue "SPF" then setSelectedFix (Some spf_fix) s1
  else s1.

End Page.

(* ------------------------------------------------------------------ *)
(** ** Further auxiliary definitions *)

(** Issue lines other than the web phase's failure note. *)
Definition real_lines (li : list string) : list string :=
  List.filter (fun l => negb (String.eqb l web_failed_line)) li.

(** What the SSL phase deducts. *)
Definition ssl_deduction (ssl : option SSLDetails) : Z :=
  match ssl with
  | Some s => if negb (valid s) then 20 else if days_lt (daysRemaining s) 14 then 10 else 0
  | None => 20
  end.

(** The web phase reaches the header checks: [fetch] and [response.text()]
    both fulfil. *)
Definition web_ok (env : Env) (d : string) : bool :=
  match fetch env (str_concat ["https://"; d]) with
  | Fulfilled response => match text response with Fulfilled _ => true | Rejected _ => false end
  | Rejected _ => false
  end.

(** [s] contains the character ['/']. *)
Fixpoint has_slash (s : string) : bool :=
  match s with
  | EmptyString => false
  | String c s' => Ascii.eqb c "/"%char || has_slash s'
  end.

Definition industry_keys : list string := map fst Risk.INDUSTRY_DATA.

(** A network whose TLS handshake presents [cert], whose clock reads
    [now], and where every other probe fails. *)
Definition tls_env (cert : PeerCert) (now : Z) : Env := {|
  port_socket := fun _ _ => SockError;
  port_order := [0; 1; 2; 3; 4]%nat;
  tls_connect := fun _ => TlsSecureConnect (Some cert);
  now_ms := now;
  resolveTxt := fun _ => Rejected "ENOTFOUND";
  fetch := fun _ => Fulfilled {| headers_get := fun _ => None; text := Rejected "aborted" |} |}.

(** A network whose web server answers with the headers [hs] and the
    body [body], and where every other probe fails. *)
Definition web_env (hs : list (string * string)) (body : string) : Env := {|
  port_socket := fun _ _ => SockError;
  port_order := [0; 1; 2; 3; 4]%nat;
  tls_connect := fun _ => TlsError;
  now_ms := 0;
  resolveTxt := fun _ => Rejected "ENOTFOUND";
  fetch := fun _ => Fulfilled {| headers_get := fun n => option_map snd (find (fun p => String.eqb (fst p) n) hs);
                                 text := Fulfilled body |} |}.

(** Integers [0 .. n-1]. *)
Definition zrange (n : nat) : list Z := map Z.of_nat (seq 0 n).

(** The integer [k] with [r = 100 * k], if there is one: [k] is the
    floor of the exact value of [r / 100], checked back against [r]. *)
Definition hundreds_of (r : float) : option Z :=
  let k := Qfloor (Risk.Q_of_float r / 100) in
  if PrimFloat.Leibniz.eqb r (float_of_Z (100 * k)) then Some k else None.

(** The estimate for an integer score, in hundreds ([-1]: not a whole
    number of hundreds in range). *)
Definition risk_k (industry : string) (employeeCount : float) (z : Z) : Z :=
  match hundreds_of (Risk.calculateFinancialRisk industry employeeCount (float_of_Z z)) with
  | Some k => k
  | None => -1
  end.

(** The size band [calculateFinancialRisk] puts an employee count in. *)
Definition size_band (employeeCount : float) : nat :=
  if (employeeCount <? 10)%float then 0%nat else if (employeeCount <? 50)%float then 1%nat else 2%nat.

(** A representative employee count of each band. *)
Definition band_rep (b : nat) : float :=
  match b with 0%nat => 5%float | 1%nat => 25%float | _ => 100%float end.

(** The exhaustive check for one industry, over the three bands and the
    scores [0 .. 100]. *)
Definition risk_check_ind (ind : string) : bool :=
  forallb (fun b =>
    forallb (fun z =>
      PrimFloat.Leibniz.eqb (Risk.calculateFinancialRisk ind (band_rep b) (float_of_Z z))
        (float_of_Z (100 * risk_k ind (band_rep b) z)) && (0 <=? risk_k ind (band_rep b) z))
      (zrange 101) &&
    forallb (fun z => risk_k ind (band_rep b) (z + 1) <=? risk_k ind (band_rep b) z) (zrange 100))
    [0; 1; 2]%nat &&
  forallb (fun z => (risk_k ind 5 z <=? risk_k ind 25 z) && (risk_k ind 25 z <=? risk_k ind 100 z))
    (zrange 101).

(** The names [identifyCMS] can return. *)
Definition cms_names : list string := ["WordPress"; "Shopify"; "Squarespace"; "Wix"; "Joomla"; "Drupal"].

(** A step from [st] to [st'] appends issue lines [li] and deducts [k],
    at least 5 for each line other than the web failure note, and nothing
    when there is no such line. *)
Definition costed (st st' : ScanReport) : Prop :=
  exists li k,
    issues st' = issues st ++ li /\ score st' = score st - k /\
    5 * Z.of_nat (length (real_lines li)) <= k /\ (real_lines li = [] -> k = 0).

(** The number of report lines, issues and passes together. *)
Definition line_total (st : ScanReport) : nat := (length (issues st) + length (passes st))%nat.

(** The issue lines of the DNS phase. *)
Definition dns_issue_lines : list string :=
  ["Missing SPF Record"; "SPF Record unsafe ('+all')"; "Missing DMARC Record"; "DMARC Policy weak ('p=none')"].

(** An issue line that gets no fix button, or one of the DNS phase. *)
Definition fix_line_ok (l : string) : Prop := Page.fix_button l = false \/ In l dns_issue_lines.

(* ================================================================== *)
(** * Properties *)

(** Closes an equation between two explicitly built [ScanReport]s. *)
Ltac close_state :=
  unfold push_issue, push_pass, deduct, set_cms; simpl;
  f_equal; try lia; rewrite <- ?app_assoc; simpl; rewrite ?app_nil_r; reflexivity.

(* ------------------------------------------------------------------ *)
(** ** Normalisation *)

Lemma split_slash_0_app_slash (s t : string) :
  split_slash_0 (String.append s (String "/" t)) = split_slash_0 s.
Proof.
  induction s as [|c s IH]; [reflexivity|].
  simpl. rewrite IH. reflexivity.
Qed.

Lemma strip_prefix_regex_https_www (x : string) :
  strip_prefix_regex (String.append "https://www." x) = x.
Proof. reflexivity. Qed.

Lemma strip_prefix_regex_plain (s : string) :
  match_ci "https://" s = None -> match_ci "http://" s = None -> match_ci "www." s = None ->
  strip_prefix_regex s = s.
Proof. intros H1 H2 H3. unfold strip_prefix_regex. rewrite H1, H2, H3. reflexivity. Qed.

(** C3 (as stated, refuted): the prefix is stripped only once, so a host
    that itself starts with [www.] keeps it when wrapped. *)
Lemma cleanDomain_www_host_kept :
  ~ (forall s : string,
       cleanDomain (String.append "https://www." (String.append s "/path")) = cleanDomain s).
Proof.
  intros H. specialize (H "www.example.com"). vm_compute in H. discriminate H.
Qed.

(** C3 (amended): for every [s] that does not itself start
    (case-insensitively) with [https://], [http://] or [www.], normalising
    ["https://www." + s + "/path"] gives the same host as normalising [s]. *)
Theorem cleanDomain_wrapped (s : string)
  (Hhttps : match_ci "https://" s = None) (Hhttp : match_ci "http://" s = None)
  (Hwww : match_ci "www." s = None) :
  cleanDomain (String.append "https://www." (String.append s "/path")) = cleanDomain s.
Proof.
  unfold cleanDomain. rewrite strip_prefix_regex_https_www, split_slash_0_app_slash.
  rewrite (strip_prefix_regex_plain s Hhttps Hhttp Hwww). reflexivity.
Qed.

Lemma cleanDomain_wrapped_witness :
  match_ci "https://" "example.com" = None /\ match_ci "http://" "example.com" = None /\
  match_ci "www." "example.com" = None /\
  cleanDomain (String.append "https://www." (String.append "example.com" "/path")) =
  cleanDomain "example.com".
Proof.
  split; [reflexivity|]. split; [reflexivity|]. split; [reflexivity|].
  apply cleanDomain_wrapped; reflexivity.
Defined.

(* ------------------------------------------------------------------ *)
(** ** The financial risk estimate *)

(** C9 (code defect): at [("retail", 20, 93)] the claimed formula gives
    [ceil(2000000 * 0.005 * 0.07 / 100) * 100 = 700], but the binary64
    evaluation of the source reaches [7.000000000000001] before
    [Math.ceil] and returns 800. The regression value
    [("finance", 5, 45) -> 6200] does hold. *)
Theorem calculateFinancialRisk_retail_20_93 :
  Risk.calculateFinancialRisk "retail" 20 93 = 800%float /\
  Risk.claimed_loss "retail" 20 93 = 700 /\
  Risk.calculateFinancialRisk "finance" 5 45 = 6200%float /\
  Risk.claimed_loss "finance" 5 45 = 6200.
Proof. vm_compute. repeat split; reflexivity. Qed.

(** C10 (code defect): the fallback [|| INDUSTRY_DATA["other"]] is not
    taken for a key inherited from [Object.prototype]: for ["constructor"]
    the result is NaN, while ["other"] gives 1100. *)
Theorem calculateFinancialRisk_constructor_nan :
  is_nan (Risk.calculateFinancialRisk "constructor" 5 45) = true /\
  Risk.calculateFinancialRisk "other" 5 45 = 1100%float.
Proof. vm_compute. split; reflexivity. Qed.

(* ------------------------------------------------------------------ *)
(** ** [Promise.all] returns the values in input order *)

Section PromiseAll.
Context {A : Type} (vals : list A).

Lemma length_settle order slots : length (settle vals order slots) = length slots.
Proof.
  revert slots. induction order as [|i order IH]; intros slots; [reflexivity|].
  simpl. rewrite IH. destruct (vals !! i); [apply length_insert|reflexivity].
Qed.

Lemma settle_lookup_notin order slots (j : nat) :
  ~ In j order -> settle vals order slots !! j = slots !! j.
Proof.
  revert slots. induction order as [|i order IH]; intros slots Hj; [reflexivity|].
  simpl. rewrite IH by (intros H; apply Hj; right; exact H).
  destruct (vals !! i); [|reflexivity].
  apply list_lookup_insert_ne. intros ->. apply Hj. left. reflexivity.
Qed.

Lemma settle_lookup_in order slots (j : nat) :
  length slots = length vals -> (j < length vals)%nat -> In j order ->
  settle vals order slots !! j = Some (vals !! j).
Proof.
  revert slots. induction order as [|i order IH]; intros slots Hlen Hj Hin; [destruct Hin|].
  simpl. destruct (in_dec Nat.eq_dec j order) as [Hin'|Hout].
  - apply IH; [|exact Hj|exact Hin'].
    destruct (vals !! i); [rewrite length_insert|]; exact Hlen.
  - destruct Hin as [->|Hin]; [|contradiction].
    rewrite settle_lookup_notin by exact Hout.
    destruct (lookup_lt_is_Some_2 vals j Hj) as [v Hv]. rewrite Hv.
    apply list_lookup_insert_eq. lia.
Qed.

Lemma lookup_map {B} (f : A -> B) (l : list A) (i : nat) : map f l !! i = option_map f (l !! i).
Proof.
  revert i. induction l as [|x l IH]; intros [|i]; try reflexivity. apply IH.
Qed.

Lemma promise_all_in_order order :
  Permutation order (seq 0 (length vals)) -> promise_all order vals = map Some vals.
Proof.
  intros Hperm. apply list_eq. intros j. rewrite lookup_map. unfold promise_all.
  destruct (decide (j < length vals)%nat) as [Hj|Hj].
  - rewrite settle_lookup_in; [|apply length_replicate|exact Hj|].
    + destruct (lookup_lt_is_Some_2 vals j Hj) as [v Hv]. rewrite Hv. reflexivity.
    + apply (Permutation_in _ (Permutation_sym Hperm)). apply in_seq. lia.
  - assert (Hn : vals !! j = None) by (apply lookup_ge_None; lia). rewrite Hn.
    apply lookup_ge_None. rewrite length_settle, length_replicate. lia.
Qed.

Lemma Forall_settle (P : option A -> Prop) order slots :
  Forall P slots -> Forall (fun v => P (Some v)) vals -> Forall P (settle vals order slots).
Proof.
  revert slots. induction order as [|i order IH]; intros slots Hs Hv; [exact Hs|].
  simpl. apply IH; [|exact Hv].
  destruct (vals !! i) as [v|] eqn:Hi; [|exact Hs].
  apply Forall_insert; [exact Hs|]. exact (Forall_lookup_1 _ _ _ _ Hv Hi).
Qed.

End PromiseAll.

(* ------------------------------------------------------------------ *)
(** ** The port phase *)

Lemma port_fold rs n st :
  fold_left port_step rs (n, st) =
  ((n + open_count rs)%nat,
   {| score := score st - open_deduction rs; issues := issues st ++ open_lines rs;
      passes := passes st; cms := cms st |}).
Proof.
  revert n st. induction rs as [|[r|] rs IH]; intros n st; simpl.
  - destruct st; simpl. rewrite Nat.add_0_r, Z.sub_0_r, app_nil_r. reflexivity.
  - unfold open_port_line, risk_deduction.
    destruct (isOpen r); rewrite IH; simpl; f_equal; try lia; f_equal; try lia.
    rewrite <- app_assoc. reflexivity.
  - apply IH.
Qed.

Lemma port_phase_eq env d st :
  port_phase env d st =
  {| score := score st - open_deduction (port_results env d);
     issues := issues st ++ open_lines (port_results env d);
     passes := passes st ++ (if Nat.eqb (open_count (port_results env d)) 0
                             then ["Critical Ports are Firewalled"] else []);
     cms := cms st |}.
Proof.
  unfold port_phase. fold (port_results env d). rewrite port_fold. simpl.
  destruct (Nat.eqb _ 0); [reflexivity|]. rewrite app_nil_r. reflexivity.
Qed.

(** C4: whatever the order in which the five probes settle, the port phase
    deducts 20 for each open Critical port (3389, 3306, 5432) and 10 for
    each other open port (21, 22), adds one issue line per open port naming
    port and service in the catalogue order 21, 22, 3389, 3306, 5432, and
    adds the single pass line exactly when no port is open. *)
Theorem port_phase_catalog_order env d st
  (Hord : Permutation (port_order env) [0; 1; 2; 3; 4]%nat) :
  let o21 := checkPort env d 21 in
  let o22 := checkPort env d 22 in
  let o3389 := checkPort env d 3389 in
  let o3306 := checkPort env d 3306 in
  let o5432 := checkPort env d 5432 in
  port_phase env d st =
  {| score := score st - (10 * (Z.b2z o21 + Z.b2z o22) + 20 * (Z.b2z o3389 + Z.b2z o3306 + Z.b2z o5432));
     issues := issues st ++ (if o21 then ["Open Port: 21 (FTP)"] else [])
                         ++ (if o22 then ["Open Port: 22 (SSH)"] else [])
                         ++ (if o3389 then ["Open Port: 3389 (RDP)"] else [])
                         ++ (if o3306 then ["Open Port: 3306 (MySQL)"] else [])
                         ++ (if o5432 then ["Open Port: 5432 (PostgreSQL)"] else []);
     passes := passes st ++ (if o21 || o22 || o3389 || o3306 || o5432 then []
                             else ["Critical Ports are Firewalled"]);
     cms := cms st |}.
Proof.
  intros. rewrite port_phase_eq. unfold port_results.
  rewrite promise_all_in_order by exact Hord.
  subst o21 o22 o3389 o3306 o5432. unfold portsToCheck. cbn [map port].
  destruct (checkPort env d 21), (checkPort env d 22), (checkPort env d 3389),
    (checkPort env d 3306), (checkPort env d 5432); reflexivity.
Qed.

Lemma port_phase_catalog_order_witness :
  Permutation [4; 2; 0; 3; 1]%nat [0; 1; 2; 3; 4]%nat /\
  port_phase (example_env [3306; 22] [4; 2; 0; 3; 1]%nat) "example.com" scan_init =
  {| score := 70; issues := ["Open Port: 22 (SSH)"; "Open Port: 3306 (MySQL)"];
     passes := []; cms := None |}.
Proof.
  assert (Hp : Permutation [4; 2; 0; 3; 1]%nat [0; 1; 2; 3; 4]%nat)
    by (apply (bool_decide_unpack _); vm_compute; reflexivity).
  split; [exact Hp|].
  exact (port_phase_catalog_order (example_env [3306; 22] [4; 2; 0; 3; 1]%nat) "example.com" scan_init Hp).
Defined.

(* ------------------------------------------------------------------ *)
(** ** The SSL phase *)

Lemma getSSLDetails_valid env d s :
  getSSLDetails env d = Some s -> valid s = days_gt (daysRemaining s) 0.
Proof.
  unfold getSSLDetails. destruct (tls_connect env d) as [[cert|]| |]; try discriminate.
  intros H. injection H as <-. reflexivity.
Qed.

(** C5: no certificate summary or an expired one costs 20 and one issue
    line; a valid certificate with fewer than 14 days left costs 10 and one
    issue line; any other valid certificate costs nothing and adds one pass
    line citing the days remaining; and a produced summary is valid exactly
    when [daysRemaining > 0]. *)
Theorem ssl_phase_deductions env d st :
  let ssl := getSSLDetails env d in
  ((ssl = None \/ exists s, ssl = Some s /\ valid s = false) ->
     score (ssl_phase ssl st) = score st - 20 /\ passes (ssl_phase ssl st) = passes st /\
     length (issues (ssl_phase ssl st)) = S (length (issues st))) /\
  (forall s z, ssl = Some s -> valid s = true -> daysRemaining s = DaysNum z -> z < 14 ->
     score (ssl_phase ssl st) = score st - 10 /\ passes (ssl_phase ssl st) = passes st /\
     issues (ssl_phase ssl st) =
       issues st ++ [str_concat ["SSL Expires soon ("; number_to_string z; " days)"]]) /\
  (forall s z, ssl = Some s -> valid s = true -> daysRemaining s = DaysNum z -> 14 <= z ->
     score (ssl_phase ssl st) = score st /\ issues (ssl_phase ssl st) = issues st /\
     passes (ssl_phase ssl st) =
       passes st ++ [str_concat ["SSL Valid ("; number_to_string z; " days left)"]]) /\
  (forall s, ssl = Some s -> (valid s = true <-> exists z, daysRemaining s = DaysNum z /\ 0 < z)).
Proof.
  intros ssl. split; [|split; [|split]].
  - intros [Hn|[s [Hs Hv]]].
    + rewrite Hn. simpl. rewrite length_app. simpl. repeat split; lia.
    + rewrite Hs. simpl. rewrite Hv. simpl. rewrite length_app. simpl. repeat split; lia.
  - intros s z Hs Hv Hd Hz. rewrite Hs. simpl. rewrite Hv, Hd. simpl.
    rewrite (proj2 (Z.ltb_lt z 14) Hz). repeat split.
  - intros s z Hs Hv Hd Hz. rewrite Hs. simpl. rewrite Hv, Hd. simpl.
    rewrite (proj2 (Z.ltb_ge z 14) Hz). repeat split.
  - intros s Hs. rewrite (getSSLDetails_valid env d s Hs). split.
    + intros Hv. destruct (daysRemaining s) as [z|]; [|discriminate]. exists z.
      split; [reflexivity|]. simpl in Hv. lia.
    + intros [z [Hd Hz]]. rewrite Hd. simpl. lia.
Qed.

(* ------------------------------------------------------------------ *)
(** ** Scores only go down; [cms] is written by the web phase alone *)

Lemma open_deduction_nonneg rs : 0 <= open_deduction rs.
Proof.
  induction rs as [|[r|] rs IH]; simpl; try lia.
  unfold risk_deduction. destruct (isOpen r); [case_match|]; lia.
Qed.

Lemma port_phase_score env d st : score (port_phase env d st) <= score st.
Proof. rewrite port_phase_eq. simpl. pose proof (open_deduction_nonneg (port_results env d)). lia. Qed.

Lemma port_phase_cms env d st : cms (port_phase env d st) = cms st.
Proof. rewrite port_phase_eq. reflexivity. Qed.

Lemma ssl_phase_score ssl st : score (ssl_phase ssl st) <= score st.
Proof. unfold ssl_phase. repeat case_match; simpl; lia. Qed.

Lemma ssl_phase_cms ssl st : cms (ssl_phase ssl st) = cms st.
Proof. unfold ssl_phase. repeat case_match; reflexivity. Qed.

Lemma dns_phase_split env d st :
  dns_phase env d st =
  dmarc_step (first_record "v=DMARC1" (resolveTxt env (str_concat ["_dmarc."; d])))
    (spf_step (first_record "v=spf1" (resolveTxt env d)) st).
Proof. reflexivity. Qed.

Lemma spf_step_score o st : score (spf_step o st) <= score st.
Proof. unfold spf_step. repeat case_match; simpl; lia. Qed.

Lemma dmarc_step_score o st : score (dmarc_step o st) <= score st.
Proof. unfold dmarc_step. repeat case_match; simpl; lia. Qed.

Lemma dns_phase_score env d st : score (dns_phase env d st) <= score st.
Proof.
  rewrite dns_phase_split.
  eapply Z.le_trans; [apply dmarc_step_score|apply spf_step_score].
Qed.

Lemma dns_phase_cms env d st : cms (dns_phase env d st) = cms st.
Proof. rewrite dns_phase_split. unfold dmarc_step, spf_step. repeat case_match; reflexivity. Qed.

Lemma web_phase_score env d st : score (web_phase env d st) <= score st.
Proof. unfold web_phase. repeat case_match; simpl; lia. Qed.

Lemma scan_locals_score domain env : score (scan_locals domain env) <= 100.
Proof.
  unfold scan_locals.
  eapply Z.le_trans; [apply web_phase_score|].
  eapply Z.le_trans; [apply dns_phase_score|].
  eapply Z.le_trans; [apply ssl_phase_score|].
  eapply Z.le_trans; [apply port_phase_score|]. simpl. lia.
Qed.

(** C1: for every input and every outcome of every probe, the reported
    score lies in [0, 100]. *)
Theorem scanDomain_score_bounds domain env :
  exists r, scanDomain domain env = Fulfilled r /\ 0 <= score r <= 100.
Proof.
  eexists. split; [reflexivity|]. simpl.
  pose proof (scan_locals_score domain env). lia.
Qed.

(* ------------------------------------------------------------------ *)
(** ** How many lines each phase adds *)

Lemma open_lines_length rs : length (open_lines rs) = open_count rs.
Proof.
  induction rs as [|[r|] rs IH]; simpl; [reflexivity| |exact IH].
  destruct (isOpen r); simpl; rewrite IH; reflexivity.
Qed.

Lemma port_phase_lines env d st :
  line_total (port_phase env d st) = (line_total st + Nat.max 1 (open_count (port_results env d)))%nat.
Proof.
  rewrite port_phase_eq. unfold line_total. simpl. rewrite !length_app, open_lines_length.
  destruct (open_count (port_results env d)) as [|n]; simpl; lia.
Qed.

Lemma ssl_phase_lines ssl st : line_total (ssl_phase ssl st) = S (line_total st).
Proof.
  unfold line_total, ssl_phase. repeat case_match; simpl; rewrite !length_app; simpl; lia.
Qed.

Lemma dns_phase_lines env d st : line_total (dns_phase env d st) = (line_total st + 2)%nat.
Proof.
  rewrite dns_phase_split. unfold line_total, dmarc_step, spf_step.
  repeat case_match; simpl; rewrite ?length_app; simpl; lia.
Qed.

Lemma web_phase_lines env d st :
  line_total (web_phase env d st) = (line_total st + if web_ok env d then 3 else 1)%nat.
Proof.
  unfold line_total, web_phase, web_ok. repeat case_match; simpl; rewrite ?length_app; simpl; lia.
Qed.

(** The web phase appends the same lines and deducts the same amount
    whatever state it starts from. *)
Lemma web_phase_shift env d st :
  score (web_phase env d st) = score st + score (web_phase env d zero_st) /\
  issues (web_phase env d st) = issues st ++ issues (web_phase env d zero_st).
Proof.
  unfold web_phase. repeat case_match; unfold push_issue, push_pass, deduct, set_cms; simpl;
    split; try lia; rewrite <- ?app_assoc, ?app_nil_r; reflexivity.
Qed.

Lemma web_phase_passes_shift env d st :
  passes (web_phase env d st) = passes st ++ passes (web_phase env d zero_st).
Proof.
  unfold web_phase. repeat case_match; unfold push_issue, push_pass, deduct, set_cms; simpl;
    rewrite <- ?app_assoc, ?app_nil_r; reflexivity.
Qed.

(* ------------------------------------------------------------------ *)
(** ** No input aborts the scan *)

(** C2 (as stated, refuted): ["https://"] normalises to the empty host,
    yet [scanDomain] does not fail: it probes the empty host and returns a
    report. *)
Lemma scanDomain_empty_host_report :
  cleanDomain "https://" = EmptyString /\
  scanDomain "https://" (example_env [] [0; 1; 2; 3; 4]%nat) =
  Fulfilled {| score := 30;
               issues := ["No SSL Certificate found"; "Missing SPF Record";
                          "Missing DMARC Record"; web_failed_line];
               passes := ["Critical Ports are Firewalled"];
               cms := None |}.
Proof. split; vm_compute; reflexivity. Qed.

(** C2 (amended): [scanDomain] has no failure path. For every input,
    including one whose normalisation is the empty host, it returns a
    report built by running every phase against the normalised host [d]:
    the report holds the port verdicts (one line per open port, or the
    "firewalled" pass), one TLS line, two DNS lines and the three header
    lines (or the one failure note), and it depends on the network only
    through the probes of [d]: its ports, its TLS handshake, the TXT
    records of [d] and of [_dmarc.d], and [https://d]. Two networks that
    answer these probes alike give the same report. *)
Theorem scanDomain_always_reports domain env env'
  (Hport : forall p, port_socket env' (cleanDomain domain) p = port_socket env (cleanDomain domain) p)
  (Horder : port_order env' = port_order env)
  (Htls : tls_connect env' (cleanDomain domain) = tls_connect env (cleanDomain domain))
  (Hnow : now_ms env' = now_ms env)
  (Hapex : resolveTxt env' (cleanDomain domain) = resolveTxt env (cleanDomain domain))
  (Hdmarc : resolveTxt env' (str_concat ["_dmarc."; cleanDomain domain]) =
            resolveTxt env (str_concat ["_dmarc."; cleanDomain domain]))
  (Hweb : fetch env' (str_concat ["https://"; cleanDomain domain]) =
          fetch env (str_concat ["https://"; cleanDomain domain])) :
  let d := cleanDomain domain in
  exists r, scanDomain domain env = Fulfilled r /\ scanDomain domain env' = Fulfilled r /\
    (length (issues r) + length (passes r) =
     Nat.max 1 (open_count (port_results env d)) + 1 + 2 + (if web_ok env d then 3 else 1))%nat.
Proof.
  cbv zeta. set (d := cleanDomain domain) in *.
  assert (HP : forall st, port_phase env' d st = port_phase env d st).
  { intros st. unfold port_phase, checkPort. rewrite Horder.
    replace (map (fun p => {| entry := p; isOpen := match port_socket env' d (port p) with
                                                   | SockConnect => true | _ => false end |})
               portsToCheck)
      with (map (fun p => {| entry := p; isOpen := match port_socket env d (port p) with
                                                  | SockConnect => true | _ => false end |})
              portsToCheck); [reflexivity|].
    apply map_ext. intros p. rewrite Hport. reflexivity. }
  assert (HS : getSSLDetails env' d = getSSLDetails env d).
  { unfold getSSLDetails. rewrite Htls, Hnow. reflexivity. }
  assert (HD : forall st, dns_phase env' d st = dns_phase env d st).
  { intros st. rewrite !dns_phase_split, Hapex, Hdmarc. reflexivity. }
  assert (HW : forall st, web_phase env' d st = web_phase env d st).
  { intros st. unfold web_phase. rewrite Hweb. reflexivity. }
  assert (HL : scan_locals domain env' = scan_locals domain env).
  { unfold scan_locals. fold d. rewrite HP, HS, HD, HW. reflexivity. }
  eexists. split; [reflexivity|]. split; [unfold scanDomain; rewrite HL; reflexivity|].
  cbn [issues passes].
  change (line_total (scan_locals domain env) =
          (Nat.max 1 (open_count (port_results env d)) + 1 + 2 + (if web_ok env d then 3 else 1))%nat).
  unfold scan_locals. fold d.
  rewrite web_phase_lines, dns_phase_lines, ssl_phase_lines, port_phase_lines.
  unfold line_total. simpl. lia.
Qed.

Lemma scanDomain_always_reports_witness :
  let env := example_env [] [0; 1; 2; 3; 4]%nat in
  let env' := with_txt env "example.com" (Fulfilled [["v=spf1 -all"]]) in
  cleanDomain "https://" = EmptyString /\
  resolveTxt env' (cleanDomain "https://") = resolveTxt env (cleanDomain "https://") /\
  resolveTxt env' (str_concat ["_dmarc."; cleanDomain "https://"]) =
    resolveTxt env (str_concat ["_dmarc."; cleanDomain "https://"]) /\
  exists r, scanDomain "https://" env = Fulfilled r /\ scanDomain "https://" env' = Fulfilled r /\
    (length (issues r) + length (passes r) =
     Nat.max 1 (open_count (port_results env (cleanDomain "https://"))) + 1 + 2 +
       (if web_ok env (cleanDomain "https://") then 3 else 1))%nat.
Proof.
  cbv zeta. split; [reflexivity|]. split; [reflexivity|]. split; [reflexivity|].
  exact (scanDomain_always_reports "https://" (example_env [] [0; 1; 2; 3; 4]%nat)
           (with_txt (example_env [] [0; 1; 2; 3; 4]%nat) "example.com" (Fulfilled [["v=spf1 -all"]]))
           (fun p => eq_refl) eq_refl eq_refl eq_refl eq_refl eq_refl eq_refl).
Defined.

(* ------------------------------------------------------------------ *)
(** ** A failed apex lookup *)

(** C6 (as stated, refuted): when the apex lookup fails (and so does the
    [_dmarc] lookup), the DNS phase adds two issue lines, not one. *)
Lemma dns_phase_apex_failure_two_issues :
  resolveTxt (example_env [] [0; 1; 2; 3; 4]%nat) "example.com" = Rejected "ENOTFOUND" /\
  issues (dns_phase (example_env [] [0; 1; 2; 3; 4]%nat) "example.com" scan_init) =
    ["Missing SPF Record"; "Missing DMARC Record"].
Proof. split; reflexivity. Qed.

Lemma web_phase_cms_shift env d st :
  cms st = None -> cms (web_phase env d st) = cms (web_phase env d zero_st).
Proof. intros H. unfold web_phase. repeat case_match; simpl; exact H || reflexivity. Qed.

Lemma scanDomain_dns_web env d domain :
  d = cleanDomain domain ->
  let B := ssl_phase (getSSLDetails env d) (port_phase env d scan_init) in
  let W := web_phase env d zero_st in
  scanDomain domain env =
  Fulfilled {| score := Z.max 0 (score (dns_phase env d B) + score W);
               issues := issues (dns_phase env d B) ++ issues W;
               passes := passes (dns_phase env d B) ++ passes W;
               cms := cms W |}.
Proof.
  intros ->. cbv zeta. unfold scanDomain, scan_locals.
  set (X := dns_phase env (cleanDomain domain)
              (ssl_phase (getSSLDetails env (cleanDomain domain))
                 (port_phase env (cleanDomain domain) scan_init))).
  destruct (web_phase_shift env (cleanDomain domain) X) as [S I].
  rewrite S, I, web_phase_passes_shift, web_phase_cms_shift; [reflexivity|].
  unfold X. rewrite dns_phase_cms, ssl_phase_cms, port_phase_cms. reflexivity.
Qed.

(** C6 (amended): a failed apex lookup is read as an empty record set.
    The DNS phase deducts 20 and adds the issue ["Missing SPF Record"],
    then judges DMARC from the first [v=DMARC1] record of the separate
    [_dmarc] lookup, adding exactly one more line: no such record gives
    the issue ["Missing DMARC Record"] and -30, one containing [p=none]
    the weak-policy issue and -10, any other the pass
    ["DMARC Record Active"] and no deduction. Nothing aborts: the report
    is the port and TLS phases, then this DNS phase, then the web phase,
    clamped at 0. *)
Theorem dns_phase_apex_failure env domain st reason
  (Hapex : resolveTxt env (cleanDomain domain) = Rejected reason) :
  let d := cleanDomain domain in
  let dmarc := first_record "v=DMARC1" (resolveTxt env (str_concat ["_dmarc."; d])) in
  (dmarc = None ->
     dns_phase env d st =
     {| score := score st - 20 - 30;
        issues := issues st ++ ["Missing SPF Record"; "Missing DMARC Record"];
        passes := passes st; cms := cms st |}) /\
  (forall r, dmarc = Some r -> includes r "p=none" = true ->
     dns_phase env d st =
     {| score := score st - 20 - 10;
        issues := issues st ++ ["Missing SPF Record"; "DMARC Policy weak ('p=none')"];
        passes := passes st; cms := cms st |}) /\
  (forall r, dmarc = Some r -> includes r "p=none" = false ->
     dns_phase env d st =
     {| score := score st - 20;
        issues := issues st ++ ["Missing SPF Record"];
        passes := passes st ++ ["DMARC Record Active"]; cms := cms st |}) /\
  (let B := ssl_phase (getSSLDetails env d) (port_phase env d scan_init) in
   let W := web_phase env d zero_st in
   scanDomain domain env =
   Fulfilled {| score := Z.max 0 (score (dns_phase env d B) + score W);
                issues := issues (dns_phase env d B) ++ issues W;
                passes := passes (dns_phase env d B) ++ passes W;
                cms := cms W |}).
Proof.
  cbv zeta. split; [|split; [|split]].
  - intros Hn. rewrite dns_phase_split. unfold first_record at 2. rewrite Hapex, Hn. unfold dmarc_step, spf_step, push_issue, push_pass, deduct; simpl; rewrite <- ?app_assoc; reflexivity.
  - intros r Hr Hw. rewrite dns_phase_split. unfold first_record at 2. rewrite Hapex, Hr.
    unfold dmarc_step. rewrite Hw. unfold dmarc_step, spf_step, push_issue, push_pass, deduct; simpl; rewrite <- ?app_assoc; reflexivity.
  - intros r Hr Hw. rewrite dns_phase_split. unfold first_record at 2. rewrite Hapex, Hr.
    unfold dmarc_step. rewrite Hw. unfold dmarc_step, spf_step, push_issue, push_pass, deduct; simpl; rewrite <- ?app_assoc; reflexivity.
  - apply scanDomain_dns_web. reflexivity.
Qed.

Lemma dns_phase_apex_failure_witness :
  resolveTxt (example_env [] [0; 1; 2; 3; 4]%nat) (cleanDomain "example.com") = Rejected "ENOTFOUND" /\
  first_record "v=DMARC1" (resolveTxt (example_env [] [0; 1; 2; 3; 4]%nat) "_dmarc.example.com") = None /\
  dns_phase (example_env [] [0; 1; 2; 3; 4]%nat) "example.com" scan_init =
  {| score := 100 - 20 - 30; issues := [] ++ ["Missing SPF Record"; "Missing DMARC Record"];
     passes := []; cms := None |}.
Proof.
  assert (H : resolveTxt (example_env [] [0; 1; 2; 3; 4]%nat) (cleanDomain "example.com") =
              Rejected "ENOTFOUND") by reflexivity.
  split; [exact H|]. split; [reflexivity|].
  exact (proj1 (dns_phase_apex_failure _ "example.com" scan_init _ H) eq_refl).
Defined.

(* ------------------------------------------------------------------ *)
(** ** A failed web audit *)

(** C8: when [fetch] rejects, the web phase adds only the one issue line
    [web_failed_line]: no header deduction, the port, TLS and DNS lines
    and score are kept as they were, and [cms] stays [null]. *)
Theorem web_failure_keeps_earlier_results domain env reason
  (Hfetch : fetch env (str_concat ["https://"; cleanDomain domain]) = Rejected reason) :
  let d := cleanDomain domain in
  let st := dns_phase env d (ssl_phase (getSSLDetails env d) (port_phase env d scan_init)) in
  scanDomain domain env =
  Fulfilled {| score := Z.max 0 (score st); issues := issues st ++ [web_failed_line];
               passes := passes st; cms := None |}.
Proof.
  cbv zeta. unfold scanDomain, scan_locals.
  assert (Hw : forall st, web_phase env (cleanDomain domain) st = push_issue web_failed_line st)
    by (intros st; unfold web_phase; rewrite Hfetch; reflexivity).
  rewrite Hw. cbn [push_issue score issues passes cms].
  rewrite dns_phase_cms, ssl_phase_cms, port_phase_cms. reflexivity.
Qed.

Lemma web_failure_keeps_earlier_results_witness :
  fetch (example_env [22] [0; 1; 2; 3; 4]%nat) (str_concat ["https://"; cleanDomain "example.com"]) =
    Rejected "fetch failed" /\
  scanDomain "example.com" (example_env [22] [0; 1; 2; 3; 4]%nat) =
  Fulfilled {| score := 20;
               issues := ["Open Port: 22 (SSH)"; "No SSL Certificate found"; "Missing SPF Record";
                          "Missing DMARC Record"; web_failed_line];
               passes := []; cms := None |}.
Proof.
  assert (H : fetch (example_env [22] [0; 1; 2; 3; 4]%nat) (str_concat ["https://"; cleanDomain "example.com"]) =
              Rejected "fetch failed") by reflexivity.
  split; [exact H|].
  exact (web_failure_keeps_earlier_results "example.com" _ _ H).
Defined.

(* ------------------------------------------------------------------ *)
(** ** Which issue lines mention DMARC *)

Lemma count_dmarc_app l1 l2 : count_dmarc (l1 ++ l2) = (count_dmarc l1 + count_dmarc l2)%nat.
Proof.
  unfold count_dmarc. induction l1 as [|x l1 IH]; [reflexivity|].
  simpl. destruct (includes x "DMARC"); simpl; rewrite ?IH; reflexivity.
Qed.

Lemma count_dmarc_none l : Forall no_dmarc l -> count_dmarc l = 0%nat.
Proof.
  induction 1 as [|x l Hx _ IH]; [reflexivity|].
  unfold count_dmarc in *. simpl. unfold no_dmarc in Hx. rewrite Hx. exact IH.
Qed.

Lemma open_lines_no_dmarc rs :
  Forall (fun o => match o with Some r => no_dmarc (open_port_line (entry r)) | None => True end) rs ->
  Forall no_dmarc (open_lines rs).
Proof.
  induction 1 as [|[r|] rs Hr _ IH]; simpl; [constructor| |exact IH].
  apply Forall_app. split; [|exact IH]. destruct (isOpen r); [constructor; [exact Hr|constructor]|constructor].
Qed.

Lemma port_phase_no_dmarc env d :
  Forall no_dmarc (issues (port_phase env d scan_init)).
Proof.
  rewrite port_phase_eq. simpl. apply open_lines_no_dmarc. unfold port_results, promise_all.
  apply Forall_settle.
  - apply Forall_replicate. exact I.
  - unfold portsToCheck. simpl. repeat constructor.
Qed.

Lemma soon_line_no_dmarc z :
  0 < z < 14 -> no_dmarc (str_concat ["SSL Expires soon ("; number_to_string z; " days)"]).
Proof.
  intros Hz.
  assert (z = 1 \/ z = 2 \/ z = 3 \/ z = 4 \/ z = 5 \/ z = 6 \/ z = 7 \/ z = 8 \/ z = 9 \/
          z = 10 \/ z = 11 \/ z = 12 \/ z = 13) as Hcases by lia.
  repeat (destruct Hcases as [Hcases|Hcases]; [subst z; reflexivity|]). subst z. reflexivity.
Qed.

Lemma ssl_phase_no_dmarc env d st :
  exists li, issues (ssl_phase (getSSLDetails env d) st) = issues st ++ li /\ Forall no_dmarc li.
Proof.
  destruct (getSSLDetails env d) as [s|] eqn:Hs.
  - pose proof (getSSLDetails_valid env d s Hs) as Hv. simpl.
    destruct (valid s) eqn:Hval; simpl.
    + destruct (daysRemaining s) as [z|]; [|discriminate]. simpl in Hv |- *.
      destruct (z <? 14) eqn:Hlt; simpl.
      * eexists. split; [reflexivity|]. constructor; [|constructor].
        apply soon_line_no_dmarc. lia.
      * exists []. split; [rewrite app_nil_r; reflexivity|constructor].
    + eexists. split; [reflexivity|]. repeat constructor.
  - eexists. split; [reflexivity|]. repeat constructor.
Qed.

Lemma spf_step_no_dmarc o st :
  exists li, issues (spf_step o st) = issues st ++ li /\ Forall no_dmarc li.
Proof.
  unfold spf_step. repeat case_match; simpl;
    first [exists []; split; [rewrite app_nil_r; reflexivity|constructor]
          |eexists; split; [reflexivity|repeat constructor]].
Qed.


Lemma web_phase_no_dmarc env d : Forall no_dmarc (issues (web_phase env d zero_st)).
Proof. unfold web_phase. repeat case_match; simpl; repeat constructor. Qed.

Lemma string_length_append a b :
  String.length (String.append a b) = (String.length a + String.length b)%nat.
Proof. induction a as [|c a IH]; simpl; [reflexivity|rewrite IH; reflexivity]. Qed.

Lemma dmarc_name_ne d : String.eqb d (str_concat ["_dmarc."; d]) = false.
Proof.
  apply String.eqb_neq. intros Heq.
  assert (Hl : String.length d = String.length (str_concat ["_dmarc."; d])) by (f_equal; exact Heq).
  unfold str_concat in Hl. simpl in Hl. rewrite !string_length_append in Hl. simpl in Hl. lia.
Qed.

(** Changing only the TXT answer for [_dmarc.<cleanDomain>] changes
    only the DMARC step of the scan. *)
Lemma scan_locals_with_dmarc domain env p :
  let d := cleanDomain domain in
  scan_locals domain (with_txt env (str_concat ["_dmarc."; d]) p) =
  web_phase env d
    (dmarc_step (first_record "v=DMARC1" p)
       (spf_step (first_record "v=spf1" (resolveTxt env d))
          (ssl_phase (getSSLDetails env d) (port_phase env d scan_init)))).
Proof.
  cbv zeta. unfold scan_locals. rewrite dns_phase_split.
  simpl resolveTxt. rewrite String.eqb_refl, dmarc_name_ne. reflexivity.
Qed.

Lemma before_dmarc_no_dmarc env d :
  Forall no_dmarc
    (issues (spf_step (first_record "v=spf1" (resolveTxt env d))
               (ssl_phase (getSSLDetails env d) (port_phase env d scan_init)))).
Proof.
  destruct (spf_step_no_dmarc (first_record "v=spf1" (resolveTxt env d))
              (ssl_phase (getSSLDetails env d) (port_phase env d scan_init))) as [l2 [E2 F2]].
  destruct (ssl_phase_no_dmarc env d (port_phase env d scan_init)) as [l1 [E1 F1]].
  rewrite E2, E1. apply Forall_app. split; [apply Forall_app; split|exact F2].
  - apply port_phase_no_dmarc.
  - exact F1.
Qed.

(** ** C7: an absent DMARC record costs exactly 30 points against a
    strong one, and leaves exactly one issue line mentioning DMARC.
    The two scans see the same network except for the TXT answer for
    [_dmarc.<cleanDomain>]: [absent] holds no record containing
    [v=DMARC1] (a failed lookup counts, since it is caught as no
    records); [strong] has one whose first such record lacks [p=none].
    Scores are compared before the final clamp at 0. *)
Theorem dmarc_absent_costs_30 domain env absent strong r
  (Habsent : first_record "v=DMARC1" absent = None)
  (Hstrong : first_record "v=DMARC1" strong = Some r)
  (Henforcing : includes r "p=none" = false) :
  let n := str_concat ["_dmarc."; cleanDomain domain] in
  score (scan_locals domain (with_txt env n absent)) =
    score (scan_locals domain (with_txt env n strong)) - 30 /\
  exists ra, scanDomain domain (with_txt env n absent) = Fulfilled ra /\
             count_dmarc (issues ra) = 1%nat.
Proof.
  cbv zeta. rewrite !scan_locals_with_dmarc.
  set (d := cleanDomain domain).
  set (X := spf_step (first_record "v=spf1" (resolveTxt env d))
              (ssl_phase (getSSLDetails env d) (port_phase env d scan_init))).
  rewrite Habsent, Hstrong. unfold dmarc_step. rewrite Henforcing.
  split.
  - destruct (web_phase_shift env d (push_issue "Missing DMARC Record" (deduct 30 X))) as [S1 _].
    destruct (web_phase_shift env d (push_pass "DMARC Record Active" X)) as [S2 _].
    rewrite S1, S2. unfold push_issue, push_pass, deduct. simpl. lia.
  - eexists. split; [reflexivity|]. simpl.
    change (count_dmarc (issues (scan_locals domain
              (with_txt env (str_concat ["_dmarc."; d]) absent))) = 1%nat).
    rewrite scan_locals_with_dmarc. fold d. fold X. rewrite Habsent. unfold dmarc_step.
    destruct (web_phase_shift env d (push_issue "Missing DMARC Record" (deduct 30 X))) as [_ I1].
    rewrite I1. unfold push_issue, deduct. simpl.
    rewrite !count_dmarc_app, (count_dmarc_none (issues X) (before_dmarc_no_dmarc env d)),
      (count_dmarc_none _ (web_phase_no_dmarc env d)).
    reflexivity.
Qed.

Lemma dmarc_absent_costs_30_witness :
  first_record "v=DMARC1" (Rejected "ENOTFOUND") = None /\
  first_record "v=DMARC1" (Fulfilled [["v=DMARC1; p=reject"]]) = Some "v=DMARC1; p=reject" /\
  includes "v=DMARC1; p=reject" "p=none" = false /\
  score (scan_locals "example.com"
           (with_txt (example_env [] [0;1;2;3;4]%nat) "_dmarc.example.com" (Rejected "ENOTFOUND"))) =
  score (scan_locals "example.com"
           (with_txt (example_env [] [0;1;2;3;4]%nat) "_dmarc.example.com"
              (Fulfilled [["v=DMARC1; p=reject"]]))) - 30.
Proof.
  split; [reflexivity|]. split; [reflexivity|]. split; [reflexivity|].
  exact (proj1 (dmarc_absent_costs_30 "example.com" (example_env [] [0;1;2;3;4]%nat)
                  (Rejected "ENOTFOUND") (Fulfilled [["v=DMARC1; p=reject"]])
                  "v=DMARC1; p=reject" eq_refl eq_refl eq_refl)).
Defined.

(* ================================================================== *)
(** * Further properties of the code *)

(* ------------------------------------------------------------------ *)
(** ** Normalisation *)

Lemma split_slash_0_no_slash s : has_slash (split_slash_0 s) = false.
Proof.
  induction s as [|c s IH]; [reflexivity|]. simpl.
  destruct (Ascii.eqb c "/"%char) eqn:Hc; [reflexivity|]. simpl. rewrite Hc, IH. reflexivity.
Qed.

Lemma split_slash_0_plain s : has_slash s = false -> split_slash_0 s = s.
Proof.
  induction s as [|c s IH]; [reflexivity|]. simpl.
  destruct (Ascii.eqb c "/"%char); [discriminate|]. simpl. intros H. rewrite (IH H). reflexivity.
Qed.

(** The normalised host never contains ['/']. *)
Theorem cleanDomain_no_slash domain : has_slash (cleanDomain domain) = false.
Proof. apply split_slash_0_no_slash. Qed.

(** A bare host name (no ['/'], not starting case-insensitively with
    [https://], [http://] or [www.]) is left unchanged by normalisation. *)
Theorem cleanDomain_bare_host s
  (Hhttps : match_ci "https://" s = None) (Hhttp : match_ci "http://" s = None)
  (Hwww : match_ci "www." s = None) (Hslash : has_slash s = false) :
  cleanDomain s = s.
Proof.
  unfold cleanDomain. rewrite (strip_prefix_regex_plain s Hhttps Hhttp Hwww).
  apply split_slash_0_plain. exact Hslash.
Qed.

Lemma cleanDomain_bare_host_witness :
  match_ci "https://" "Example.com" = None /\ match_ci "http://" "Example.com" = None /\
  match_ci "www." "Example.com" = None /\ has_slash "Example.com" = false /\
  cleanDomain "Example.com" = "Example.com".
Proof.
  split; [reflexivity|]. split; [reflexivity|]. split; [reflexivity|]. split; [reflexivity|].
  apply cleanDomain_bare_host; reflexivity.
Defined.

(* ------------------------------------------------------------------ *)
(** ** Certificate expiry *)

(** With a parseable [valid_to] at [t] ms, and [ms = t - Date.now()]: the
    certificate is reported EXPIRED (-20) as soon as less than one whole
    day remains (even while it is still valid), "expires soon" (-10,
    whole days left) when between 1 and 14 whole days remain, and as a
    pass line citing the whole days left otherwise. *)
Theorem ssl_phase_expiry_boundary env d st cert t
  (Htls : tls_connect env d = TlsSecureConnect (Some cert))
  (Ht : valid_to_ms cert = Some t) :
  let ms := t - now_ms env in
  (ms < ms_per_day ->
     ssl_phase (getSSLDetails env d) st = push_issue "SSL Certificate EXPIRED" (deduct 20 st)) /\
  (ms_per_day <= ms < 14 * ms_per_day ->
     ssl_phase (getSSLDetails env d) st =
     push_issue (str_concat ["SSL Expires soon ("; number_to_string (ms / ms_per_day); " days)"])
       (deduct 10 st)) /\
  (14 * ms_per_day <= ms ->
     ssl_phase (getSSLDetails env d) st =
     push_pass (str_concat ["SSL Valid ("; number_to_string (ms / ms_per_day); " days left)"]) st).
Proof.
  intros ms. unfold getSSLDetails. rewrite Htls, Ht. fold ms.
  assert (Hpos : 0 < ms_per_day) by (unfold ms_per_day; lia).
  unfold ssl_phase, days_gt, days_lt, days_to_string. cbn [valid daysRemaining].
  split; [|split].
  - intros H. assert (Hq : ms / ms_per_day < 1) by (apply Z.div_lt_upper_bound; lia).
    replace (0 <? ms / ms_per_day) with false by (symmetry; apply Z.ltb_ge; lia). reflexivity.
  - intros [H1 H2].
    assert (Hq1 : 1 <= ms / ms_per_day) by (apply Z.div_le_lower_bound; lia).
    assert (Hq2 : ms / ms_per_day < 14) by (apply Z.div_lt_upper_bound; lia).
    replace (0 <? ms / ms_per_day) with true by (symmetry; apply Z.ltb_lt; lia).
    replace (ms / ms_per_day <? 14) with true by (symmetry; apply Z.ltb_lt; lia). reflexivity.
  - intros H.
    assert (Hq : 14 <= ms / ms_per_day) by (apply Z.div_le_lower_bound; lia).
    replace (0 <? ms / ms_per_day) with true by (symmetry; apply Z.ltb_lt; lia).
    replace (ms / ms_per_day <? 14) with false by (symmetry; apply Z.ltb_ge; lia). reflexivity.
Qed.

Lemma ssl_phase_expiry_boundary_witness :
  let env := tls_env (mkPeerCert (Some (5 * ms_per_day + 7)) None) 0 in
  tls_connect env "example.com" = TlsSecureConnect (Some (mkPeerCert (Some (5 * ms_per_day + 7)) None)) /\
  valid_to_ms (mkPeerCert (Some (5 * ms_per_day + 7)) None) = Some (5 * ms_per_day + 7) /\
  ssl_phase (getSSLDetails env "example.com") scan_init =
  push_issue (str_concat ["SSL Expires soon ("; number_to_string ((5 * ms_per_day + 7 - 0) / ms_per_day); " days)"])
    (deduct 10 scan_init).
Proof.
  intros env. split; [reflexivity|]. split; [reflexivity|].
  apply (proj1 (proj2 (ssl_phase_expiry_boundary env "example.com" scan_init _ _ eq_refl eq_refl))).
  unfold ms_per_day. simpl. lia.
Defined.

(** A certificate whose [valid_to] does not parse ([getTime()] is NaN)
    yields [daysRemaining = NaN], hence [valid = false]: it is reported as
    "SSL Certificate EXPIRED" with -20, not as a missing certificate. *)
Theorem ssl_phase_unparseable_date env d st cert
  (Htls : tls_connect env d = TlsSecureConnect (Some cert))
  (Hnan : valid_to_ms cert = None) :
  ssl_phase (getSSLDetails env d) st = push_issue "SSL Certificate EXPIRED" (deduct 20 st).
Proof. unfold getSSLDetails. rewrite Htls, Hnan. reflexivity. Qed.

Lemma ssl_phase_unparseable_date_witness :
  tls_connect (tls_env (mkPeerCert None (Some "Acme")) 0) "example.com" =
    TlsSecureConnect (Some (mkPeerCert None (Some "Acme"))) /\
  valid_to_ms (mkPeerCert None (Some "Acme")) = None /\
  ssl_phase (getSSLDetails (tls_env (mkPeerCert None (Some "Acme")) 0) "example.com") scan_init =
  push_issue "SSL Certificate EXPIRED" (deduct 20 scan_init).
Proof.
  split; [reflexivity|]. split; [reflexivity|].
  exact (ssl_phase_unparseable_date (tls_env (mkPeerCert None (Some "Acme")) 0) "example.com" scan_init _ eq_refl eq_refl).
Defined.

(* ------------------------------------------------------------------ *)
(** ** The risk estimate for other industry strings *)

Lemma own_lookup_None obj key : ~ In key (map fst obj) -> Risk.own_lookup obj key = None.
Proof.
  induction obj as [|[k v] obj IH]; intros H; [reflexivity|]. simpl.
  destruct (String.eqb k key) eqn:Hk.
  - apply String.eqb_eq in Hk. subst k. exfalso. apply H. left. reflexivity.
  - apply IH. intros Hin. apply H. right. exact Hin.
Qed.

(** An industry string that is neither a key of [INDUSTRY_DATA] nor a
    property inherited from [Object.prototype] is priced exactly as
    ["other"]. *)
Theorem calculateFinancialRisk_unknown_is_other industry employeeCount securityScore
  (Hown : ~ In industry industry_keys)
  (Hproto : ~ In industry Risk.object_prototype_keys) :
  Risk.calculateFinancialRisk industry employeeCount securityScore =
  Risk.calculateFinancialRisk "other" employeeCount securityScore.
Proof.
  unfold Risk.calculateFinancialRisk.
  assert (Hget : Risk.get_prop Risk.INDUSTRY_DATA industry = Risk.PUndefined).
  { unfold Risk.get_prop.
    replace (Risk.own_lookup Risk.INDUSTRY_DATA industry) with (@None Risk.IndustryData).
    - destruct (existsb (String.eqb industry) Risk.object_prototype_keys) eqn:He; [|reflexivity].
      apply existsb_exists in He as [k [Hk Heq]]. apply String.eqb_eq in Heq. subst k.
      contradiction.
    - symmetry. apply own_lookup_None. exact Hown. }
  rewrite Hget. reflexivity.
Qed.

Lemma calculateFinancialRisk_unknown_is_other_witness :
  ~ In "banking" industry_keys /\ ~ In "banking" Risk.object_prototype_keys /\
  Risk.calculateFinancialRisk "banking" 5 45 = Risk.calculateFinancialRisk "other" 5 45.
Proof.
  assert (H1 : ~ In "banking" industry_keys) by (simpl; intuition discriminate).
  assert (H2 : ~ In "banking" Risk.object_prototype_keys) by (simpl; intuition discriminate).
  split; [exact H1|]. split; [exact H2|].
  exact (calculateFinancialRisk_unknown_is_other "banking" 5 45 H1 H2).
Defined.

(* ------------------------------------------------------------------ *)
(** ** The risk estimate over the table's keys *)

Lemma in_zrange z n : 0 <= z < Z.of_nat n -> In z (zrange n).
Proof.
  intros H. unfold zrange. apply in_map_iff. exists (Z.to_nat z). split; [lia|].
  apply in_seq. lia.
Qed.

Lemma calculateFinancialRisk_band industry e s :
  Risk.calculateFinancialRisk industry e s =
  Risk.calculateFinancialRisk industry (band_rep (size_band e)) s.
Proof.
  unfold Risk.calculateFinancialRisk, size_band. destruct (e <? 10)%float; [reflexivity|].
  destruct (e <? 50)%float; reflexivity.
Qed.

Lemma risk_k_band industry e z : risk_k industry e z = risk_k industry (band_rep (size_band e)) z.
Proof. unfold risk_k. rewrite <- calculateFinancialRisk_band. reflexivity. Qed.

Lemma risk_table_ok_true : forallb risk_check_ind industry_keys = true.
Proof. vm_compute. reflexivity. Qed.

Lemma size_band_le2 e : (size_band e <= 2)%nat.
Proof. unfold size_band. destruct (e <? 10)%float; [lia|]. destruct (e <? 50)%float; lia. Qed.

Lemma risk_table_facts industry b
  (Hind : In industry industry_keys) (Hb : (b <= 2)%nat) :
  (forall z, 0 <= z <= 100 ->
     Risk.calculateFinancialRisk industry (band_rep b) (float_of_Z z) =
       float_of_Z (100 * risk_k industry (band_rep b) z) /\ 0 <= risk_k industry (band_rep b) z) /\
  (forall z, 0 <= z < 100 -> risk_k industry (band_rep b) (z + 1) <= risk_k industry (band_rep b) z) /\
  (forall z, 0 <= z <= 100 ->
     risk_k industry 5 z <= risk_k industry 25 z <= risk_k industry 100 z).
Proof.
  pose proof risk_table_ok_true as Hok.
  rewrite forallb_forall in Hok. specialize (Hok industry Hind). unfold risk_check_ind in Hok.
  apply andb_prop in Hok as [Hbands Hsize]. rewrite forallb_forall in Hbands, Hsize.
  assert (Hbin : In b [0; 1; 2]%nat) by (simpl; lia).
  specialize (Hbands b Hbin). apply andb_prop in Hbands as [Hval Hmono].
  rewrite forallb_forall in Hval, Hmono.
  split; [|split].
  - intros z Hz. specialize (Hval z (in_zrange z 101 ltac:(lia))).
    apply andb_prop in Hval as [Heq Hnn]. split.
    + apply FloatAxioms.Leibniz.eqb_spec. exact Heq.
    + apply Z.leb_le. exact Hnn.
  - intros z Hz. apply Z.leb_le. apply Hmono. apply in_zrange. lia.
  - intros z Hz. specialize (Hsize z (in_zrange z 101 ltac:(lia))).
    apply andb_prop in Hsize as [H1 H2]. apply Z.leb_le in H1, H2. lia.
Qed.

(** For a key of the table, any employee count and any integer score in
    [0, 100], the estimate is a whole, non-negative number of hundreds
    (in particular never NaN). *)
Theorem calculateFinancialRisk_whole_hundreds industry employeeCount z
  (Hind : In industry industry_keys) (Hz : 0 <= z <= 100) :
  exists k, 0 <= k /\
    Risk.calculateFinancialRisk industry employeeCount (float_of_Z z) = float_of_Z (100 * k).
Proof.
  rewrite calculateFinancialRisk_band.
  destruct (risk_table_facts industry (size_band employeeCount) Hind (size_band_le2 _))
    as [Hval _].
  destruct (Hval z Hz) as [Heq Hnn]. eexists. split; [exact Hnn|exact Heq].
Qed.

Lemma calculateFinancialRisk_whole_hundreds_witness :
  In "finance" industry_keys /\ 0 <= 45 <= 100 /\
  exists k, 0 <= k /\ Risk.calculateFinancialRisk "finance" 5 (float_of_Z 45) = float_of_Z (100 * k).
Proof.
  assert (H1 : In "finance" industry_keys) by (simpl; tauto).
  assert (H2 : 0 <= 45 <= 100) by lia.
  split; [exact H1|]. split; [exact H2|].
  exact (calculateFinancialRisk_whole_hundreds "finance" 5 45 H1 H2).
Defined.

(** For a key of the table and any employee count, a higher integer
    security score in [0, 100] never gives a higher estimate. *)
Theorem calculateFinancialRisk_antitone_score industry employeeCount z1 z2
  (Hind : In industry industry_keys) (Hz : 0 <= z1 <= z2) (Hz2 : z2 <= 100) :
  exists k1 k2,
    Risk.calculateFinancialRisk industry employeeCount (float_of_Z z1) = float_of_Z (100 * k1) /\
    Risk.calculateFinancialRisk industry employeeCount (float_of_Z z2) = float_of_Z (100 * k2) /\
    0 <= k2 <= k1.
Proof.
  rewrite !(calculateFinancialRisk_band industry employeeCount).
  set (b := size_band employeeCount).
  destruct (risk_table_facts industry b Hind (size_band_le2 _)) as [Hval [Hmono _]].
  destruct (Hval z1 ltac:(lia)) as [E1 N1]. destruct (Hval z2 ltac:(lia)) as [E2 N2].
  exists (risk_k industry (band_rep b) z1), (risk_k industry (band_rep b) z2).
  split; [exact E1|]. split; [exact E2|]. split; [exact N2|].
  assert (Hgen : forall n : nat, z1 + Z.of_nat n <= 100 ->
            risk_k industry (band_rep b) (z1 + Z.of_nat n) <= risk_k industry (band_rep b) z1).
  { induction n as [|n IH]; intros Hn.
    - rewrite Z.add_0_r. lia.
    - replace (z1 + Z.of_nat (S n)) with ((z1 + Z.of_nat n) + 1) by lia.
      etransitivity; [apply Hmono; lia|]. apply IH. lia. }
  replace z2 with (z1 + Z.of_nat (Z.to_nat (z2 - z1))) by lia.
  apply Hgen. lia.
Qed.

Lemma calculateFinancialRisk_antitone_score_witness :
  In "retail" industry_keys /\ 0 <= 20 <= 93 /\ 93 <= 100 /\
  exists k1 k2,
    Risk.calculateFinancialRisk "retail" 30 (float_of_Z 20) = float_of_Z (100 * k1) /\
    Risk.calculateFinancialRisk "retail" 30 (float_of_Z 93) = float_of_Z (100 * k2) /\
    0 <= k2 <= k1.
Proof.
  assert (H1 : In "retail" industry_keys) by (simpl; tauto).
  assert (H2 : 0 <= 20 <= 93) by lia. assert (H3 : 93 <= 100) by lia.
  split; [exact H1|]. split; [exact H2|]. split; [exact H3|].
  exact (calculateFinancialRisk_antitone_score "retail" 30 20 93 H1 H2 H3).
Defined.

(** For a key of the table and an integer score in [0, 100], an employee
    count in the same or a larger size band (below 10, below 50, 50 and
    over) never gives a smaller estimate. *)
Theorem calculateFinancialRisk_monotone_size industry e1 e2 z
  (Hind : In industry industry_keys) (Hz : 0 <= z <= 100)
  (Hband : (size_band e1 <= size_band e2)%nat) :
  exists k1 k2,
    Risk.calculateFinancialRisk industry e1 (float_of_Z z) = float_of_Z (100 * k1) /\
    Risk.calculateFinancialRisk industry e2 (float_of_Z z) = float_of_Z (100 * k2) /\
    0 <= k1 <= k2.
Proof.
  rewrite (calculateFinancialRisk_band industry e1), (calculateFinancialRisk_band industry e2).
  destruct (risk_table_facts industry (size_band e1) Hind (size_band_le2 _)) as [V1 [_ S]].
  destruct (risk_table_facts industry (size_band e2) Hind (size_band_le2 _)) as [V2 _].
  destruct (V1 z Hz) as [E1 N1]. destruct (V2 z Hz) as [E2 N2].
  eexists _, _. split; [exact E1|]. split; [exact E2|]. split; [exact N1|].
  specialize (S z Hz). pose proof (size_band_le2 e2) as Hle2.
  destruct (size_band e1) as [|[|[|]]], (size_band e2) as [|[|[|]]]; simpl band_rep; lia.
Qed.

Lemma calculateFinancialRisk_monotone_size_witness :
  In "marketing" industry_keys /\ 0 <= 60 <= 100 /\ (size_band 5 <= size_band 100)%nat /\
  exists k1 k2,
    Risk.calculateFinancialRisk "marketing" 5 (float_of_Z 60) = float_of_Z (100 * k1) /\
    Risk.calculateFinancialRisk "marketing" 100 (float_of_Z 60) = float_of_Z (100 * k2) /\
    0 <= k1 <= k2.
Proof.
  assert (H1 : In "marketing" industry_keys) by (simpl; tauto).
  assert (H2 : 0 <= 60 <= 100) by lia.
  assert (H3 : (size_band 5 <= size_band 100)%nat) by (vm_compute; lia).
  split; [exact H1|]. split; [exact H2|]. split; [exact H3|].
  exact (calculateFinancialRisk_monotone_size "marketing" 5 100 60 H1 H2 H3).
Defined.

(* ------------------------------------------------------------------ *)
(** ** The page after a scan *)

Lemma scanDomain_report domain env :
  scanDomain domain env =
  Fulfilled (mkReport (Z.max 0 (score (scan_locals domain env))) (issues (scan_locals domain env))
               (passes (scan_locals domain env)) (cms (scan_locals domain env))).
Proof. reflexivity. Qed.

Lemma handleScan_eq env s (Hd : Page.domain s <> EmptyString) :
  let st := scan_locals (Page.domain s) env in
  let sc := Z.max 0 (score st) in
  Page.handleScan env s =
  Page.mkPage (Page.domain s) (Page.industry s) (Page.employees s) false true sc
    (Risk.calculateFinancialRisk (Page.industry s) (Page.employees s) (float_of_Z sc))
    (issues st) (passes st) (cms st) None false.
Proof.
  intros st sc. unfold Page.handleScan.
  destruct (String.eqb (Page.domain s) EmptyString) eqn:He;
    [apply String.eqb_eq in He; contradiction|].
  reflexivity.
Qed.

(** [handleScan] on a non-empty domain with an industry from the select:
    the page ends with [loading] off and the results shown, no fix
    selected, the scan's score (in [0, 100]), lines and CMS, and a
    financial exposure computed from that score which is a whole,
    non-negative number of hundreds (never NaN). *)
Theorem handleScan_results env s
  (Hd : Page.domain s <> EmptyString) (Hind : In (Page.industry s) Page.industry_options) :
  let s' := Page.handleScan env s in
  Page.loading s' = false /\ Page.showResults s' = true /\ Page.selectedFix s' = None /\
  0 <= Page.riskScore s' <= 100 /\
  Page.financialLoss s' =
    Risk.calculateFinancialRisk (Page.industry s) (Page.employees s) (float_of_Z (Page.riskScore s')) /\
  (exists k, 0 <= k /\ Page.financialLoss s' = float_of_Z (100 * k)) /\
  (exists r, scanDomain (Page.domain s) env = Fulfilled r /\ Page.riskScore s' = score r /\
     Page.issues s' = issues r /\ Page.passes s' = passes r /\ Page.detectedCMS s' = cms r).
Proof.
  intros s'. subst s'. rewrite (handleScan_eq env s Hd). cbn [Page.loading Page.showResults
    Page.selectedFix Page.riskScore Page.financialLoss Page.issues Page.passes Page.detectedCMS].
  pose proof (scan_locals_score (Page.domain s) env) as Hle.
  set (sc := Z.max 0 (score (scan_locals (Page.domain s) env))).
  assert (Hsc : 0 <= sc <= 100) by (subst sc; lia).
  split; [reflexivity|]. split; [reflexivity|]. split; [reflexivity|]. split; [exact Hsc|].
  split; [reflexivity|]. split.
  - rewrite calculateFinancialRisk_band.
    destruct (risk_table_facts (Page.industry s) (size_band (Page.employees s)) Hind (size_band_le2 _))
      as [Hval _].
    destruct (Hval sc Hsc) as [E N]. eexists. split; [exact N|exact E].
  - eexists. split; [apply scanDomain_report|]. repeat split; reflexivity.
Qed.

Lemma handleScan_results_witness :
  Page.domain (Page.setDomain "example.com" Page.initial) <> EmptyString /\
  In (Page.industry (Page.setDomain "example.com" Page.initial)) Page.industry_options /\
  Page.riskScore (Page.handleScan (example_env [] [0; 1; 2; 3; 4]%nat) (Page.setDomain "example.com" Page.initial)) <= 100.
Proof.
  assert (H1 : Page.domain (Page.setDomain "example.com" Page.initial) <> EmptyString) by discriminate.
  assert (H2 : In (Page.industry (Page.setDomain "example.com" Page.initial)) Page.industry_options)
    by (simpl; tauto).
  split; [exact H1|]. split; [exact H2|].
  exact (proj2 (proj1 (proj2 (proj2 (proj2
    (handleScan_results (example_env [] [0; 1; 2; 3; 4]%nat) _ H1 H2)))))).
Defined.

Lemma scan_locals_dns_bound domain env :
  let d := cleanDomain domain in
  score (scan_locals domain env) <=
  score (dmarc_step (first_record "v=DMARC1" (resolveTxt env (str_concat ["_dmarc."; d])))
           (spf_step (first_record "v=spf1" (resolveTxt env d)) scan_init)).
Proof.
  intros d. unfold scan_locals. fold d. rewrite dns_phase_split.
  eapply Z.le_trans; [apply web_phase_score|].
  set (st0 := ssl_phase (getSSLDetails env d) (port_phase env d scan_init)).
  assert (H0 : score st0 <= score scan_init).
  { subst st0. eapply Z.le_trans; [apply ssl_phase_score|apply port_phase_score]. }
  unfold dmarc_step, spf_step. repeat case_match; simpl in *; lia.
Qed.

(** A domain with no SPF record and no DMARC record (lookups that fail
    count as empty) is always shown as "CRITICAL ATTENTION NEEDED": the
    two DNS findings alone take the score down to at most 50. *)
Theorem handleScan_no_email_auth_critical env s
  (Hd : Page.domain s <> EmptyString)
  (Hspf : first_record "v=spf1" (resolveTxt env (cleanDomain (Page.domain s))) = None)
  (Hdmarc : first_record "v=DMARC1"
              (resolveTxt env (str_concat ["_dmarc."; cleanDomain (Page.domain s)])) = None) :
  Page.posture (Page.riskScore (Page.handleScan env s)) = "CRITICAL ATTENTION NEEDED".
Proof.
  rewrite (handleScan_eq env s Hd). cbn [Page.riskScore].
  pose proof (scan_locals_dns_bound (Page.domain s) env) as H. cbv zeta in H.
  rewrite Hspf, Hdmarc in H. simpl in H.
  unfold Page.posture. replace (Z.max 0 (score (scan_locals (Page.domain s) env)) <? 70) with true
    by (symmetry; apply Z.ltb_lt; lia).
  reflexivity.
Qed.

Lemma handleScan_no_email_auth_critical_witness :
  Page.domain (Page.setDomain "example.com" Page.initial) <> EmptyString /\
  Page.posture (Page.riskScore (Page.handleScan (example_env [] [0; 1; 2; 3; 4]%nat)
                                  (Page.setDomain "example.com" Page.initial))) =
    "CRITICAL ATTENTION NEEDED".
Proof.
  assert (H1 : Page.domain (Page.setDomain "example.com" Page.initial) <> EmptyString) by discriminate.
  split; [exact H1|].
  apply (handleScan_no_email_auth_critical (example_env [] [0; 1; 2; 3; 4]%nat) _ H1);
    reflexivity.
Defined.

(* ------------------------------------------------------------------ *)
(** ** CMS advice *)

Lemma identifyCMS_names html h :
  identifyCMS html h = None \/ exists c, identifyCMS html h = Some c /\ In c cms_names.
Proof.
  unfold identifyCMS.
  repeat match goal with |- context [if ?b then _ else _] => destruct b end;
    first [left; reflexivity | right; eexists; split; [reflexivity|simpl; tauto]].
Qed.

Lemma web_phase_cms_cases env d st :
  cms (web_phase env d st) = cms st \/ exists html h, cms (web_phase env d st) = identifyCMS html h.
Proof.
  unfold web_phase. repeat case_match; unfold push_issue, push_pass, deduct, set_cms; simpl;
    first [left; reflexivity | right; eexists _, _; reflexivity].
Qed.

(** Whatever the scan finds, the advice card of the page has a text:
    [detectedCMS ? cmsAdvice[detectedCMS] : cmsAdvice["Unknown"]] is
    never [undefined], as every name [identifyCMS] returns is a key of
    [cmsAdvice]. *)
Theorem scanDomain_advice_defined domain env :
  exists r t, scanDomain domain env = Fulfilled r /\ Page.shown_advice (cms r) = Page.AText t.
Proof.
  assert (Hc : cms (scan_locals domain env) = None \/
               exists c, cms (scan_locals domain env) = Some c /\ In c cms_names).
  { unfold scan_locals.
    destruct (web_phase_cms_cases env (cleanDomain domain)
                (dns_phase env (cleanDomain domain)
                   (ssl_phase (getSSLDetails env (cleanDomain domain))
                      (port_phase env (cleanDomain domain) scan_init)))) as [E|[html [h E]]];
      rewrite E.
    - left. rewrite dns_phase_cms, ssl_phase_cms, port_phase_cms. reflexivity.
    - apply identifyCMS_names. }
  exists (mkReport (Z.max 0 (score (scan_locals domain env))) (issues (scan_locals domain env))
            (passes (scan_locals domain env)) (cms (scan_locals domain env))).
  destruct Hc as [E|[c [E Hin]]].
  - eexists. split; [apply scanDomain_report|]. cbn [cms]. rewrite E. reflexivity.
  - simpl in Hin.
    repeat (destruct Hin as [<-|Hin];
            [eexists; split; [apply scanDomain_report|]; cbn [cms]; rewrite E; reflexivity|]).
    destruct Hin.
Qed.

(* ------------------------------------------------------------------ *)
(** ** What the score accounts for *)

Lemma costed_trans a b c : costed a b -> costed b c -> costed a c.
Proof.
  intros [l1 [k1 [I1 [S1 [C1 Z1]]]]] [l2 [k2 [I2 [S2 [C2 Z2]]]]].
  exists (l1 ++ l2), (k1 + k2). split; [rewrite I2, I1, app_assoc; reflexivity|].
  split; [lia|]. unfold real_lines in *. rewrite List.filter_app, length_app. split; [lia|].
  intros H. apply app_eq_nil in H as [H1 H2]. specialize (Z1 H1). specialize (Z2 H2). lia.
Qed.

Lemma real_lines_single l : l <> web_failed_line -> real_lines [l] = [l].
Proof.
  intros H. unfold real_lines. simpl. destruct (String.eqb l web_failed_line) eqn:E; [|reflexivity].
  apply String.eqb_eq in E. contradiction.
Qed.

Ltac costed_one li k :=
  exists li, k; split; [reflexivity|]; split; [simpl; lia|];
  try (rewrite real_lines_single by discriminate); simpl; split; [lia|];
  try (intros; discriminate); try reflexivity.

Lemma open_lines_costed rs :
  Forall (fun o => match o with
                   | Some r => open_port_line (entry r) <> web_failed_line /\ 10 <= risk_deduction (entry r)
                   | None => True end) rs ->
  real_lines (open_lines rs) = open_lines rs /\
  10 * Z.of_nat (length (open_lines rs)) <= open_deduction rs /\
  (open_lines rs = [] -> open_deduction rs = 0).
Proof.
  induction 1 as [|[r|] rs Hr _ IH]; simpl; [repeat split; lia| |exact IH].
  destruct IH as [IH1 [IH2 IH3]]. destruct (isOpen r); simpl.
  - destruct Hr as [Hr1 Hr2]. unfold real_lines in *. simpl.
    destruct (String.eqb (open_port_line (entry r)) web_failed_line) eqn:E;
      [apply String.eqb_eq in E; contradiction|]. simpl. rewrite IH1.
    split; [reflexivity|]. split; [lia|discriminate].
  - exact (conj IH1 (conj IH2 IH3)).
Qed.

Lemma port_phase_costed env d st : costed st (port_phase env d st).
Proof.
  rewrite port_phase_eq.
  assert (HF : Forall (fun o => match o with
                   | Some r => open_port_line (entry r) <> web_failed_line /\ 10 <= risk_deduction (entry r)
                   | None => True end) (port_results env d)).
  { unfold port_results, promise_all. apply Forall_settle.
    - apply Forall_replicate. exact I.
    - unfold portsToCheck. simpl.
      repeat constructor; unfold risk_deduction; simpl; try lia; discriminate. }
  destruct (open_lines_costed _ HF) as [R [C Z0]].
  exists (open_lines (port_results env d)), (open_deduction (port_results env d)).
  split; [reflexivity|]. split; [reflexivity|]. rewrite R. split; [lia|exact Z0].
Qed.

Lemma ssl_phase_costed ssl st : costed st (ssl_phase ssl st).
Proof.
  destruct ssl as [s|]; [|costed_one ["No SSL Certificate found"] 20].
  unfold ssl_phase. destruct (negb (valid s)); [costed_one ["SSL Certificate EXPIRED"] 20|].
  destruct (days_lt (daysRemaining s) 14).
  - costed_one [str_concat ["SSL Expires soon ("; days_to_string (daysRemaining s); " days)"]] 10.
  - exists [], 0. split; [simpl; rewrite app_nil_r; reflexivity|]. simpl. repeat split; lia.
Qed.

Lemma spf_step_costed o st : costed st (spf_step o st).
Proof.
  unfold spf_step. destruct o as [r|]; [|costed_one ["Missing SPF Record"] 20].
  destruct (includes r "+all"); [costed_one ["SPF Record unsafe ('+all')"] 20|].
  exists [], 0. split; [simpl; rewrite app_nil_r; reflexivity|]. simpl. repeat split; lia.
Qed.

Lemma dmarc_step_costed o st : costed st (dmarc_step o st).
Proof.
  unfold dmarc_step. destruct o as [r|]; [|costed_one ["Missing DMARC Record"] 30].
  destruct (includes r "p=none"); [costed_one ["DMARC Policy weak ('p=none')"] 10|].
  exists [], 0. split; [simpl; rewrite app_nil_r; reflexivity|]. simpl. repeat split; lia.
Qed.

Lemma web_phase_costed env d st : costed st (web_phase env d st).
Proof.
  destruct (web_phase_shift env d st) as [S I].
  exists (issues (web_phase env d zero_st)), (- score (web_phase env d zero_st)).
  split; [exact I|]. split; [lia|].
  unfold web_phase. repeat case_match; vm_compute; split; try discriminate; try reflexivity;
    try (intros; reflexivity); congruence.
Qed.

Lemma scan_locals_costed domain env : costed scan_init (scan_locals domain env).
Proof.
  unfold scan_locals. rewrite dns_phase_split.
  eapply costed_trans; [|apply web_phase_costed].
  eapply costed_trans; [|apply dmarc_step_costed].
  eapply costed_trans; [|apply spf_step_costed].
  eapply costed_trans; [apply port_phase_costed|apply ssl_phase_costed].
Qed.

(** Every issue the scan reports, except the web failure note, costs at
    least 5 points, so the (unclamped) score is at most 100 minus 5 per
    such issue; and the reported score is 100 exactly when no issue other
    than that note is listed. *)
Theorem scanDomain_score_accounts_issues domain env :
  exists r, scanDomain domain env = Fulfilled r /\
    5 * Z.of_nat (length (real_lines (issues r))) <= 100 - score (scan_locals domain env) /\
    (score r = 100 <-> real_lines (issues r) = []).
Proof.
  eexists. split; [apply scanDomain_report|]. cbn [score issues].
  destruct (scan_locals_costed domain env) as [li [k [I [S [C Z0]]]]].
  rewrite I, S. simpl. split; [lia|]. split.
  - intros H. destruct (real_lines li) as [|x l] eqn:E; [reflexivity|]. simpl in C. lia.
  - intros H. specialize (Z0 H). lia.
Qed.

(* ------------------------------------------------------------------ *)
(** ** How many lines a report has *)

(** Every check gives its verdict line: a report has one line per open
    port (or the single "firewalled" pass), one for TLS, two for DNS, and
    three for the headers when the page was fetched and read (one failure
    note otherwise). *)
Theorem scanDomain_line_count domain env :
  let d := cleanDomain domain in
  exists r, scanDomain domain env = Fulfilled r /\
    (length (issues r) + length (passes r) =
     Nat.max 1 (open_count (port_results env d)) + 3 + (if web_ok env d then 3 else 1))%nat.
Proof.
  intros d. eexists. split; [apply scanDomain_report|]. cbn [issues passes].
  change (line_total (scan_locals domain env) =
          (Nat.max 1 (open_count (port_results env d)) + 3 + (if web_ok env d then 3 else 1))%nat).
  unfold scan_locals. fold d.
  rewrite web_phase_lines, dns_phase_lines, ssl_phase_lines, port_phase_lines.
  unfold line_total. simpl. lia.
Qed.

(* ------------------------------------------------------------------ *)
(** ** Which issue lines get a fix guide *)

Lemma soon_line_no_fix z :
  0 < z < 14 -> Page.fix_button (str_concat ["SSL Expires soon ("; number_to_string z; " days)"]) = false.
Proof.
  intros Hz.
  assert (z = 1 \/ z = 2 \/ z = 3 \/ z = 4 \/ z = 5 \/ z = 6 \/ z = 7 \/ z = 8 \/ z = 9 \/
          z = 10 \/ z = 11 \/ z = 12 \/ z = 13) as Hcases by lia.
  repeat (destruct Hcases as [Hcases|Hcases]; [subst z; reflexivity|]). subst z. reflexivity.
Qed.

Lemma scan_issues_fix_ok domain env : Forall fix_line_ok (issues (scan_locals domain env)).
Proof.
  unfold scan_locals. set (d := cleanDomain domain).
  destruct (web_phase_shift env d (dns_phase env d (ssl_phase (getSSLDetails env d)
                                                      (port_phase env d scan_init)))) as [_ HI].
  rewrite HI. apply Forall_app. split.
  - rewrite dns_phase_split. unfold dmarc_step.
    assert (HS : Forall fix_line_ok
                   (issues (spf_step (first_record "v=spf1" (resolveTxt env d))
                              (ssl_phase (getSSLDetails env d) (port_phase env d scan_init))))).
    { unfold spf_step.
      assert (H0 : Forall fix_line_ok (issues (ssl_phase (getSSLDetails env d) (port_phase env d scan_init)))).
      { assert (HP : Forall fix_line_ok (issues (port_phase env d scan_init))).
        { rewrite port_phase_eq. simpl.
          assert (HF : Forall (fun o => match o with
                                        | Some r => fix_line_ok (open_port_line (entry r))
                                        | None => True end) (port_results env d)).
          { unfold port_results, promise_all. apply Forall_settle.
            - apply Forall_replicate. exact I.
            - unfold portsToCheck. simpl. repeat constructor; left; reflexivity. }
          clear -HF. induction HF as [|[r|] rs Hr _ IH]; simpl; [constructor| |exact IH].
          apply Forall_app. split; [|exact IH]. destruct (isOpen r); [constructor; [exact Hr|constructor]|constructor]. }
        destruct (getSSLDetails env d) as [s|] eqn:Hs; simpl;
          [|apply Forall_app; split; [exact HP|repeat constructor; left; reflexivity]].
        pose proof (getSSLDetails_valid env d s Hs) as Hv.
        destruct (valid s); simpl;
          [|apply Forall_app; split; [exact HP|repeat constructor; left; reflexivity]].
        destruct (daysRemaining s) as [z|]; [|discriminate]. simpl in Hv |- *.
        destruct (z <? 14) eqn:Hlt; simpl; [|exact HP].
        apply Forall_app. split; [exact HP|]. constructor; [|constructor].
        left. apply soon_line_no_fix. lia. }
      repeat case_match; simpl; try exact H0;
        apply Forall_app; split; try exact H0; repeat constructor; right; simpl; tauto. }
    repeat case_match; simpl; try exact HS;
      apply Forall_app; split; try exact HS; repeat constructor; right; simpl; tauto.
  - unfold web_phase. repeat case_match; simpl; repeat constructor; left; reflexivity.
Qed.

(** Only the DNS phase's issue lines get a "fix" button on the page, and
    clicking it always opens a guide: the DMARC guide (for the domain as
    typed) for the two DMARC lines, the SPF template for the two SPF
    lines. *)
Theorem scan_fix_buttons domain env :
  exists r, scanDomain domain env = Fulfilled r /\
    forall l s, In l (issues r) -> Page.fix_button l = true ->
      ((l = "Missing DMARC Record" \/ l = "DMARC Policy weak ('p=none')") /\
       Page.selectedFix (Page.generateFix l s) = Some (Page.dmarc_fix (Page.domain s))) \/
      ((l = "Missing SPF Record" \/ l = "SPF Record unsafe ('+all')") /\
       Page.selectedFix (Page.generateFix l s) = Some Page.spf_fix).
Proof.
  eexists. split; [apply scanDomain_report|]. cbn [issues].
  intros l s Hin Hb. pose proof (scan_issues_fix_ok domain env) as HF.
  rewrite List.Forall_forall in HF. destruct (HF l Hin) as [Hn|Hd]; [congruence|].
  simpl in Hd. destruct Hd as [<-|[<-|[<-|[<-|[]]]]].
  - right. split; [left; reflexivity|reflexivity].
  - right. split; [right; reflexivity|reflexivity].
  - left. split; [left; reflexivity|reflexivity].
  - left. split; [right; reflexivity|reflexivity].
Qed.

(* ------------------------------------------------------------------ *)
(** ** What the page's record templates do to the next scan *)

Lemma find_app_none {A} (f : A -> bool) l1 l2 :
  find f l1 = None -> find f (l1 ++ l2) = find f l2.
Proof.
  induction l1 as [|x l1 IH]; simpl; [reflexivity|].
  destruct (f x); [discriminate|exact IH].
Qed.

Lemma first_record_added needle others r :
  first_record needle (Fulfilled others) = None ->
  includes r needle = true ->
  first_record needle (Fulfilled (others ++ [[r]])) = Some r.
Proof.
  unfold first_record. simpl. intros Hn Hr.
  rewrite concat_app, (find_app_none _ _ _ Hn). simpl. rewrite Hr. reflexivity.
Qed.

Lemma dmarc_lines_app l1 l2 :
  List.filter (fun l => includes l "DMARC") (l1 ++ l2) =
  List.filter (fun l => includes l "DMARC") l1 ++ List.filter (fun l => includes l "DMARC") l2.
Proof.
  induction l1 as [|x l1 IH]; simpl; [reflexivity|].
  destruct (includes x "DMARC"); simpl; rewrite IH; reflexivity.
Qed.

Lemma dmarc_lines_none l : Forall no_dmarc l -> List.filter (fun l => includes l "DMARC") l = [].
Proof. induction 1 as [|x l Hx _ IH]; simpl; [reflexivity|]. unfold no_dmarc in Hx. rewrite Hx. exact IH. Qed.


(** Changing only the TXT answer for [cleanDomain] itself changes only
    the SPF step of the scan. *)
Lemma scan_locals_with_apex domain env p :
  let d := cleanDomain domain in
  scan_locals domain (with_txt env d p) =
  web_phase env d
    (dmarc_step (first_record "v=DMARC1" (resolveTxt env (str_concat ["_dmarc."; d])))
       (spf_step (first_record "v=spf1" p)
          (ssl_phase (getSSLDetails env d) (port_phase env d scan_init)))).
Proof.
  cbv zeta. unfold scan_locals. rewrite dns_phase_split.
  cbn [resolveTxt with_txt]. rewrite String.eqb_refl, (String.eqb_sym (str_concat _)), dmarc_name_ne.
  reflexivity.
Qed.

(** The DMARC guide of the page suggests the record
    [v=DMARC1; p=none; rua=mailto:admin@<domain>]. Adding it to the
    [_dmarc] TXT records of a domain that has no DMARC record wins back
    20 of the 30 points, and the scan still reports a DMARC issue: the
    weak-policy line, now the only line mentioning DMARC. *)
Theorem dmarc_guide_record_still_weak domain env others u
  (Hnone : first_record "v=DMARC1" (Fulfilled others) = None) :
  let n := str_concat ["_dmarc."; cleanDomain domain] in
  let published := scan_locals domain (with_txt env n (Fulfilled (others ++ [[Page.dmarc_value u]]))) in
  score published = score (scan_locals domain (with_txt env n (Fulfilled others))) + 20 /\
  List.filter (fun l => includes l "DMARC") (issues published) = ["DMARC Policy weak ('p=none')"].
Proof.
  cbv zeta. rewrite !scan_locals_with_dmarc.
  set (d := cleanDomain domain).
  set (X := spf_step (first_record "v=spf1" (resolveTxt env d))
              (ssl_phase (getSSLDetails env d) (port_phase env d scan_init))).
  rewrite Hnone, (first_record_added _ _ _ Hnone) by reflexivity.
  unfold dmarc_step.
  assert (Hw : includes (Page.dmarc_value u) "p=none" = true) by reflexivity.
  rewrite Hw. split.
  - destruct (web_phase_shift env d (push_issue "Missing DMARC Record" (deduct 30 X))) as [S1 _].
    destruct (web_phase_shift env d (push_issue "DMARC Policy weak ('p=none')" (deduct 10 X))) as [S2 _].
    rewrite S1, S2. unfold push_issue, deduct. simpl. lia.
  - destruct (web_phase_shift env d (push_issue "DMARC Policy weak ('p=none')" (deduct 10 X))) as [_ I1].
    rewrite I1. unfold push_issue, deduct. simpl.
    rewrite !dmarc_lines_app, (dmarc_lines_none (issues X) (before_dmarc_no_dmarc env d)),
      (dmarc_lines_none _ (web_phase_no_dmarc env d)).
    reflexivity.
Qed.

Lemma dmarc_guide_record_still_weak_witness :
  first_record "v=DMARC1" (Fulfilled [["v=spf1 -all"]]) = None /\
  let n := str_concat ["_dmarc."; cleanDomain "example.com"] in
  let env := example_env [443] [] in
  let published := scan_locals "example.com"
    (with_txt env n (Fulfilled ([["v=spf1 -all"]] ++ [[Page.dmarc_value "example.com"]]))) in
  score published = score (scan_locals "example.com" (with_txt env n (Fulfilled [["v=spf1 -all"]]))) + 20 /\
  List.filter (fun l => includes l "DMARC") (issues published) = ["DMARC Policy weak ('p=none')"].
Proof.
  split; [reflexivity|].
  exact (dmarc_guide_record_still_weak "example.com" (example_env [443] []) [["v=spf1 -all"]]
           "example.com" eq_refl).
Defined.

(** The SPF template of the page suggests
    [v=spf1 include:_spf.google.com include:spf.protection.outlook.com ~all].
    Adding it to the apex TXT records of a domain that has no SPF record
    wins back the 20 points and turns the verdict into the pass
    "SPF Record Detected". *)
Theorem spf_template_record_passes domain env others
  (Hnone : first_record "v=spf1" (Fulfilled others) = None) :
  let d := cleanDomain domain in
  let published := scan_locals domain (with_txt env d (Fulfilled (others ++ [[Page.spf_value]]))) in
  score published = score (scan_locals domain (with_txt env d (Fulfilled others))) + 20 /\
  In "SPF Record Detected" (passes published).
Proof.
  cbv zeta. rewrite !scan_locals_with_apex.
  set (d := cleanDomain domain).
  set (B := ssl_phase (getSSLDetails env d) (port_phase env d scan_init)).
  set (o := first_record "v=DMARC1" (resolveTxt env (str_concat ["_dmarc."; d]))).
  rewrite Hnone, (first_record_added _ _ _ Hnone) by reflexivity.
  unfold spf_step.
  assert (Hs : includes Page.spf_value "+all" = false) by reflexivity.
  rewrite Hs. split.
  - destruct (web_phase_shift env d (dmarc_step o (push_issue "Missing SPF Record" (deduct 20 B)))) as [S1 _].
    destruct (web_phase_shift env d (dmarc_step o (push_pass "SPF Record Detected" B))) as [S2 _].
    rewrite S1, S2. unfold dmarc_step, push_issue, push_pass, deduct.
    destruct o as [r|]; [destruct (includes r "p=none")|]; simpl; lia.
  - rewrite web_phase_passes_shift. apply in_or_app. left.
    unfold dmarc_step, push_issue, push_pass, deduct.
    destruct o as [r|]; [destruct (includes r "p=none")|]; simpl;
      rewrite ?in_app_iff; simpl; tauto.
Qed.

Lemma spf_template_record_passes_witness :
  first_record "v=spf1" (Fulfilled [["google-site-verification=abc"]]) = None /\
  let env := example_env [443] [] in
  let d := cleanDomain "example.com" in
  let published := scan_locals "example.com"
    (with_txt env d (Fulfilled ([["google-site-verification=abc"]] ++ [[Page.spf_value]]))) in
  score published = score (scan_locals "example.com" (with_txt env d (Fulfilled [["google-site-verification=abc"]]))) + 20 /\
  In "SPF Record Detected" (passes published).
Proof.
  split; [reflexivity|].
  exact (spf_template_record_passes "example.com" (example_env [443] [])
           [["google-site-verification=abc"]] eq_refl).
Defined.

(* ------------------------------------------------------------------ *)
(** ** The earlier engine against the main one *)

Lemma Legacy_dns_phase_score env d st :
  score st - 50 <= score (Legacy.dns_phase env d st) <= score st.
Proof.
  unfold Legacy.dns_phase. repeat case_match; unfold push_issue, push_pass, deduct; simpl; lia.
Qed.

Lemma Legacy_web_phase_score env d st :
  score st - 20 <= score (Legacy.web_phase env d st) <= score st.
Proof.
  unfold Legacy.web_phase. repeat case_match; unfold push_issue, push_pass, deduct; simpl; lia.
Qed.

Lemma Legacy_dns_phase_lines env d st :
  line_total (Legacy.dns_phase env d st) = (line_total st + 2)%nat.
Proof.
  unfold line_total, Legacy.dns_phase.
  repeat case_match; unfold push_issue, push_pass, deduct; simpl; rewrite ?length_app; simpl; lia.
Qed.

Lemma Legacy_web_phase_lines env d st :
  line_total (Legacy.web_phase env d st) =
  (line_total st + match fetch env (str_concat ["https://"; d]) with
                   | Fulfilled _ => 3 | Rejected _ => 1 end)%nat.
Proof.
  unfold line_total, Legacy.web_phase.
  repeat case_match; unfold push_issue, push_pass, deduct; simpl; rewrite ?length_app; simpl; lia.
Qed.

Lemma Legacy_scan_locals_score domain env :
  30 <= score (Legacy.scan_locals domain env) <= 100.
Proof.
  unfold Legacy.scan_locals.
  pose proof (Legacy_dns_phase_score env (cleanDomain domain) scan_init).
  pose proof (Legacy_web_phase_score env (cleanDomain domain)
                (Legacy.dns_phase env (cleanDomain domain) scan_init)).
  simpl score in *. lia.
Qed.

(** The earlier engine never reaches the clamp: its deductions add up to
    at most 70 points (20 SPF, 30 DMARC, 10 HSTS, 5 and 5 for the other
    two headers), so every report it returns scores between 30 and 100
    and is the score it computed. *)
Theorem Legacy_scanDomain_score_range domain env :
  exists r, Legacy.scanDomain domain env = Fulfilled r /\
    Legacy.score r = score (Legacy.scan_locals domain env) /\
    30 <= Legacy.score r <= 100.
Proof.
  pose proof (Legacy_scan_locals_score domain env) as Hb.
  unfold Legacy.scanDomain. destruct (Legacy.scan_locals domain env) as [s is ps c].
  simpl in Hb. eexists. split; [reflexivity|]. simpl. lia.
Qed.

(** The earlier engine gives two DNS verdict lines and then three header
    verdict lines when [fetch] succeeds, or the one failure note when it
    is rejected. *)
Theorem Legacy_scanDomain_line_count domain env :
  exists r, Legacy.scanDomain domain env = Fulfilled r /\
    (length (Legacy.issues r) + length (Legacy.passes r) =
     2 + match fetch env (str_concat ["https://"; cleanDomain domain]) with
         | Fulfilled _ => 3 | Rejected _ => 1 end)%nat.
Proof.
  unfold Legacy.scanDomain.
  assert (H : line_total (Legacy.scan_locals domain env) =
              (2 + match fetch env (str_concat ["https://"; cleanDomain domain]) with
                   | Fulfilled _ => 3 | Rejected _ => 1 end)%nat).
  { unfold Legacy.scan_locals. rewrite Legacy_web_phase_lines, Legacy_dns_phase_lines.
    unfold line_total. simpl. lia. }
  destruct (Legacy.scan_locals domain env) as [s is ps c]. unfold line_total in H. simpl in H.
  eexists. split; [reflexivity|]. simpl. exact H.
Qed.

Lemma ssl_phase_score_eq ssl st : score (ssl_phase ssl st) = score st - ssl_deduction ssl.
Proof.
  unfold ssl_phase, ssl_deduction. repeat case_match; unfold push_issue, push_pass, deduct; simpl; lia.
Qed.

Lemma dns_phase_vs_legacy env d st st' :
  score (dns_phase env d st) - score st = score (Legacy.dns_phase env d st') - score st'.
Proof.
  unfold dns_phase, Legacy.dns_phase.
  repeat case_match; unfold push_issue, push_pass, deduct; simpl; lia.
Qed.

Lemma web_phase_vs_legacy env d st st'
  (Htext : forall resp, fetch env (str_concat ["https://"; d]) = Fulfilled resp ->
                        exists b, text resp = Fulfilled b) :
  score (web_phase env d st) - score st = score (Legacy.web_phase env d st') - score st'.
Proof.
  unfold web_phase, Legacy.web_phase.
  destruct (fetch env (str_concat ["https://"; d])) as [resp|e] eqn:Hf.
  - destruct (Htext resp eq_refl) as [b Hb]. rewrite Hb.
    cbv zeta.
    destruct (truthy (headers_get resp "strict-transport-security")),
      (truthy (headers_get resp "x-content-type-options")),
      (truthy (headers_get resp "x-frame-options"));
    destruct (headers_get resp "content-security-policy") as [c|]; simpl;
      try destruct (String.eqb c EmptyString); try destruct (includes c "frame-ancestors");
      simpl; unfold push_issue, push_pass, deduct, set_cms; simpl; lia.
  - unfold push_issue. simpl. lia.
Qed.

(** Where the page body can always be read once the page is fetched, the
    main engine's score (before the clamp) is the earlier engine's score
    minus the two checks only the main engine runs: the risk of the open
    ports and the TLS deduction. The SPF, DMARC and header checks cost
    the same in both. *)
Theorem scan_score_vs_legacy domain env
  (Htext : forall resp, fetch env (str_concat ["https://"; cleanDomain domain]) = Fulfilled resp ->
                        exists b, text resp = Fulfilled b) :
  let d := cleanDomain domain in
  score (scan_locals domain env) =
  score (Legacy.scan_locals domain env) - open_deduction (port_results env d)
    - ssl_deduction (getSSLDetails env d).
Proof.
  cbv zeta. unfold scan_locals, Legacy.scan_locals. set (d := cleanDomain domain).
  set (A := ssl_phase (getSSLDetails env d) (port_phase env d scan_init)).
  pose proof (web_phase_vs_legacy env d (dns_phase env d A) (Legacy.dns_phase env d scan_init) Htext) as W.
  pose proof (dns_phase_vs_legacy env d A scan_init) as D.
  assert (HA : score A = 100 - open_deduction (port_results env d) - ssl_deduction (getSSLDetails env d)).
  { unfold A. rewrite ssl_phase_score_eq, port_phase_eq. reflexivity. }
  assert (H100 : score scan_init = 100) by reflexivity. lia.
Qed.

Lemma scan_score_vs_legacy_witness :
  (forall resp, fetch (web_env [] EmptyString) (str_concat ["https://"; cleanDomain "example.com"]) = Fulfilled resp ->
                exists b, text resp = Fulfilled b) /\
  score (scan_locals "example.com" (web_env [] EmptyString)) =
  score (Legacy.scan_locals "example.com" (web_env [] EmptyString))
    - open_deduction (port_results (web_env [] EmptyString) (cleanDomain "example.com"))
    - ssl_deduction (getSSLDetails (web_env [] EmptyString) (cleanDomain "example.com")).
Proof.
  assert (H : forall resp, fetch (web_env [] EmptyString) (str_concat ["https://"; cleanDomain "example.com"]) = Fulfilled resp ->
                           exists b, text resp = Fulfilled b).
  { intros resp Hf. injection Hf as <-. exists EmptyString. reflexivity. }
  split; [exact H|exact (scan_score_vs_legacy "example.com" (web_env [] EmptyString) H)].
Defined.
